(** * A shallow embedding of the account backend of [main.py]

    The four endpoints of [main.py] ([signup], [login], [update_profile],
    [delete_profile]) are embedded as functions in a small state-and-exception
    monad over the two resources the handlers touch: the [users] collection
    and the upload directory.

    What the handlers call but do not define is taken as an interface:
    - pydantic's lax [str -> int] parsing and its [EmailStr] check,
    - bcrypt's [hashpw] and [checkpw] (the salt of [gensalt] is an input),
    - PyJWT's [encode],
    - writing a file under the upload directory.
    The current time, the fresh [ObjectId] of an insert and the salt are
    explicit inputs of the handlers.

    Domain of the model: a Python [str] is a [string] whose characters are
    the code points 0..255; a dictionary value is [None], a [bool], an
    [int] or a [str] (JSON numbers with a fraction, arrays and objects are
    outside the model); requests are handled one at a time. *)

From Stdlib Require Import ZArith NArith String Ascii List Bool Lia.
From Stdlib.Strings Require Import Byte.
From stdpp Require Import base option list gmap strings.

Local Open Scope string_scope.
Local Open Scope list_scope.
Local Open Scope Z_scope.

(** ** Python strings and bytes *)

Definition bytes := list byte.

(** [needle in hay] on [str]. *)
Fixpoint contains (needle hay : string) : bool :=
  String.prefix needle hay ||
  match hay with
  | EmptyString => false
  | String _ rest => contains needle rest
  end.

(** [s.startswith(p)] and [s.endswith(p)] for a one-character [p]. *)
Definition startswith (s : string) (c : ascii) : bool :=
  match s with
  | String c' _ => Ascii.eqb c c'
  | EmptyString => false
  end.

Fixpoint endswith (s : string) (c : ascii) : bool :=
  match s with
  | EmptyString => false
  | String c' EmptyString => Ascii.eqb c c'
  | String _ rest => endswith rest c
  end.

(** [os.path.join(a, b)] of [posixpath], for two components. *)
Definition path_join (a b : string) : string :=
  if startswith b "/" then b
  else if (String.length a =? 0)%nat || endswith a "/" then (a ++ b)%string
  else (a ++ "/" ++ b)%string.

Definition byte_of_N (n : N) : byte := byte_of_ascii (ascii_of_N n).

(** [str.encode("utf-8")]: one byte below U+0080, two bytes up to U+00FF. *)
Definition encode_char (c : ascii) : bytes :=
  let n := N_of_ascii c in
  if (n <? 128)%N then [byte_of_ascii c]
  else [byte_of_N (192 + n / 64); byte_of_N (128 + n mod 64)].

Fixpoint encode_utf8 (s : string) : bytes :=
  match s with
  | EmptyString => []
  | String c rest => (encode_char c ++ encode_utf8 rest)
  end.

(** [bytes.decode("utf-8")] on the byte sequences that denote code points
    up to U+00FF; [None] is [UnicodeDecodeError] (or a character outside
    the modelled range). *)
Fixpoint decode_utf8 (bs : bytes) : option string :=
  match bs with
  | [] => Some EmptyString
  | b :: rest =>
      let n := Byte.to_N b in
      if (n <? 128)%N then String (ascii_of_byte b) <$> decode_utf8 rest
      else if (n =? 194)%N || (n =? 195)%N then
        match rest with
        | b2 :: rest' =>
            let m := Byte.to_N b2 in
            if (128 <=? m)%N && (m <? 192)%N
            then String (ascii_of_N ((n - 192) * 64 + (m - 128))) <$> decode_utf8 rest'
            else None
        | [] => None
        end
      else None
  end.

(** ** Values, documents and the world *)

(** The values a dictionary of the program holds. *)
Inductive value :=
| VNone
| VBool (b : bool)
| VInt (n : Z)
| VStr (s : string).

#[global] Instance value_eq_dec : EqDecision value.
Proof. solve_decision. Defined.

(** Python truthiness, as tested by [if not x]. *)
Definition truthy (v : value) : bool :=
  match v with
  | VNone => false
  | VBool b => b
  | VInt n => negb (n =? 0)
  | VStr s => negb (String.length s =? 0)%nat
  end.

(** [not d.get(k)] *)
Definition falsy (o : option value) : bool :=
  match o with
  | Some v => negb (truthy v)
  | None => true
  end.

(** A field of a parsed form: text, or an [UploadFile]. *)
Inductive form_value :=
| Text (s : string)
| Upload (filename : string) (content : bytes).

Definition falsy_field (o : option form_value) : bool :=
  match o with
  | None => true
  | Some (Text s) => (String.length s =? 0)%nat
  | Some (Upload _ _) => false
  end.

(** [form.items()]: the pairs of the form, one per key. *)
Definition form_data := list (string * form_value).

(** [form.get(key)] *)
Fixpoint form_get (key : string) (form : form_data) : option form_value :=
  match form with
  | [] => None
  | (k, v) :: rest => if String.eqb k key then Some v else form_get key rest
  end.

(** What [await request.json()] yields. *)
Inductive parsed_json :=
| JObject (d : gmap string value)
| JNotObject
| JInvalid.

Record request := {
  content_type : option string;      (* the content-type header, if sent *)
  json : parsed_json;                (* await request.json() *)
  form : option form_data            (* await request.form(); None: it raises *)
}.

(** A document of the collection: its [_id] and its other fields. *)
Record document := {
  _id : string;
  fields : gmap string value
}.

Inductive exn :=
| JSONDecodeError
| MultiPartException
| TypeError
| OSError
| UnicodeDecodeError
| InvalidDocument
| AttributeError
| ValueError.

Inductive result (A : Type) :=
| Returned (a : A)
| Raised (e : exn).
Arguments Returned {A} a.
Arguments Raised {A} e.

(** ** Interfaces of the libraries the handlers call *)

Class Pydantic := {
  (** lax-mode parsing of a [str] into an [int] *)
  int_of_str : string -> option Z;
  (** [EmailStr]: the normalized address, or [None] when the syntax is wrong *)
  validate_email : string -> option string
}.

(** [salt] is what [gensalt()] returns; [hashpw] is taken on such salts,
    where it does not raise. *)
Class Bcrypt := {
  salt : Type;
  hashpw : bytes -> salt -> bytes;
  (** [None]: [checkpw] raises [ValueError] *)
  checkpw : bytes -> bytes -> option bool
}.

(** The contract of the hasher: its output is text, it verifies against the
    password it came from, and it is never its own input. *)
Class BcryptLaws `{Bcrypt} : Prop := {
  hashpw_text : forall p s, exists h, hashpw p s = encode_utf8 h;
  checkpw_hashpw : forall p s, checkpw p (hashpw p s) = Some true;
  hashpw_one_way : forall p s, hashpw p s <> p
}.

Inductive claim_value :=
| CValue (v : option value)
| CDatetime (t : Z).

Class PyJWT := {
  (** [jwt.encode(payload, key, algorithm=...)] *)
  jwt_encode : list (string * claim_value) -> string -> string -> string
}.

Class FileSystem := {
  FS : Type;
  (** [open(path, "wb")] then [write]; [None]: [OSError] *)
  write_file : string -> bytes -> FS -> option FS
}.

(** ** The pydantic model [SignupModel] *)

Inductive error_type :=
| missing
| string_type
| string_too_short
| string_too_long
| int_type
| int_parsing
| greater_than_equal
| less_than_equal
| value_error.

(** One entry of [ve.errors()]: the violated constraint, the field and the
    offending input ([None] for a missing field). *)
Record error_details := {
  err_type : error_type;
  err_loc : string;
  err_input : option value
}.

Record SignupModel := {
  firstName : string;
  lastName : string;
  age : Z;
  email : string;
  password : string;
  mobileNo : string;
  profilePic : string
}.

Section Validation.
Context `{Pydantic}.

(** [str] with [Field(min_length=..., max_length=...)] *)
Definition validate_str (min_length : nat) (max_length : option nat)
    (v : value) : error_type + string :=
  match v with
  | VStr s =>
      if (String.length s <? min_length)%nat then inl string_too_short
      else match max_length with
           | Some m => if (m <? String.length s)%nat then inl string_too_long else inr s
           | None => inr s
           end
  | _ => inl string_type
  end.

(** lax-mode coercion to [int] *)
Definition lax_int (v : value) : error_type + Z :=
  match v with
  | VInt n => inr n
  | VBool b => inr (Z.b2z b)
  | VStr s => match int_of_str s with
              | Some n => inr n
              | None => inl int_parsing
              end
  | VNone => inl int_type
  end.

(** [int] with [Field(ge=..., le=...)] *)
Definition validate_int (ge le : Z) (v : value) : error_type + Z :=
  match lax_int v with
  | inl e => inl e
  | inr n =>
      if n <? ge then inl greater_than_equal
      else if le <? n then inl less_than_equal
      else inr n
  end.

Definition validate_EmailStr (v : value) : error_type + string :=
  match v with
  | VStr s => match validate_email s with
              | Some e => inr e
              | None => inl value_error
              end
  | _ => inl string_type
  end.

(** Validation of one field of the keyword arguments. *)
Definition validate_field {A} (data : gmap string value) (name : string)
    (validator : value -> error_type + A) : error_details + A :=
  match data !! name with
  | None => inl {| err_type := missing; err_loc := name; err_input := None |}
  | Some v =>
      match validator v with
      | inl e => inl {| err_type := e; err_loc := name; err_input := Some v |}
      | inr a => inr a
      end
  end.

(** Errors of all fields are collected, in the order of the fields. *)
Definition collect {A B} (f : list error_details + (A -> B))
    (x : error_details + A) : list error_details + B :=
  match f, x with
  | inr g, inr a => inr (g a)
  | inr _, inl e => inl [e]
  | inl es, inr _ => inl es
  | inl es, inl e => inl (es ++ [e])
  end.

(** [SignupModel] built from the keyword arguments [data]: the model, or
    the errors of [ValidationError]. *)
Definition SignupModel_validate (data : gmap string value)
    : list error_details + SignupModel :=
  collect (collect (collect (collect (collect (collect (collect
    (inr Build_SignupModel)
    (validate_field data "firstName" (validate_str 2 (Some 30%nat))))
    (validate_field data "lastName" (validate_str 1 (Some 30%nat))))
    (validate_field data "age" (validate_int 1 120)))
    (validate_field data "email" validate_EmailStr))
    (validate_field data "password" (validate_str 6 None)))
    (validate_field data "mobileNo" (validate_str 10 (Some 15%nat))))
    (validate_field data "profilePic" (validate_str 0 None)).

(** [valid.model_dump()] *)
Definition model_dump (valid : SignupModel) : gmap string value :=
  <["firstName" := VStr (firstName valid)]>
  (<["lastName" := VStr (lastName valid)]>
  (<["age" := VInt (age valid)]>
  (<["email" := VStr (email valid)]>
  (<["password" := VStr (password valid)]>
  (<["mobileNo" := VStr (mobileNo valid)]>
  (<["profilePic" := VStr (profilePic valid)]> ∅)))))).

(** The constraints of the UserRecord schema, field by field, as the
    specification words them: firstName 2-30 characters, lastName 1-30
    characters, age an integer from 1 to 120, email a valid address,
    password at least 6 characters, mobileNo 10-15 characters, profilePic
    a string. *)
Definition chars_between (lo hi : nat) (v : value) : bool :=
  match v with
  | VStr s => (lo <=? String.length s)%nat && (String.length s <=? hi)%nat
  | _ => false
  end.

Definition chars_at_least (lo : nat) (v : value) : bool :=
  match v with
  | VStr s => (lo <=? String.length s)%nat
  | _ => false
  end.

Definition integer_between (lo hi : Z) (v : value) : bool :=
  match lax_int v with
  | inr n => (lo <=? n) && (n <=? hi)
  | inl _ => false
  end.

Definition email_syntax (v : value) : bool :=
  match v with
  | VStr s => bool_decide (is_Some (validate_email s))
  | _ => false
  end.

Definition UserRecord_schema : list (string * (value -> bool)) :=
  [ ("firstName", chars_between 2 30);
    ("lastName", chars_between 1 30);
    ("age", integer_between 1 120);
    ("email", email_syntax);
    ("password", chars_at_least 6);
    ("mobileNo", chars_between 10 15);
    ("profilePic", chars_at_least 0) ].

(** A field is violated when it is absent or its value breaks its
    constraint. *)
Definition violates (data : gmap string value)
    (constraint : string * (value -> bool)) : bool :=
  match data !! constraint.1 with
  | Some v => negb (constraint.2 v)
  | None => true
  end.

Definition violated_fields (data : gmap string value) : list string :=
  map fst (List.filter (violates data) UserRecord_schema).

End Validation.

(** ** The collection [users_coll] *)

(** The filter [{"email": email}]. *)
Definition matches (email : value) (doc : document) : bool :=
  bool_decide (fields doc !! "email" = Some email).

(** [find_one]: the first matching document, in insertion order. *)
Fixpoint find_one (email : value) (coll : list document) : option document :=
  match coll with
  | [] => None
  | doc :: rest => if matches email doc then Some doc else find_one email rest
  end.

(** [insert_one]: the document is added under a fresh [_id]. *)
Definition insert_one (oid : string) (doc : gmap string value)
    (coll : list document) : list document :=
  (coll ++ [{| _id := oid; fields := doc |}]).

(** [update_one] with [{"$set": update_doc}]: the fields of [update_doc]
    replace those of the first matching document; the count of matched
    documents comes with the collection. *)
Fixpoint update_one (email : value) (update_doc : gmap string value)
    (coll : list document) : list document * nat :=
  match coll with
  | [] => ([], 0%nat)
  | doc :: rest =>
      if matches email doc
      then ({| _id := _id doc; fields := update_doc ∪ fields doc |} :: rest, 1%nat)
      else let '(rest', n) := update_one email update_doc rest in (doc :: rest', n)
  end.

(** [delete_one]: the first matching document is removed. *)
Fixpoint delete_one (email : value) (coll : list document) : list document * nat :=
  match coll with
  | [] => ([], 0%nat)
  | doc :: rest =>
      if matches email doc then (rest, 1%nat)
      else let '(rest', n) := delete_one email rest in (doc :: rest', n)
  end.

(** ** Responses *)

Inductive response :=
| RError (error : string) (details : option (list error_details))
    (* {"error": ..., "details": ...} *)
| RSignup (msg inserted_id : string)
    (* {"msg": ..., "inserted_id": ...} *)
| RFailure (msg : string) (details : option (list error_details))
    (* {"status": "failure", "msg": ..., "details": ...} *)
| RSuccess (msg : string)
    (* {"status": "success", "msg": ...} *)
| RLogin (token : string) (user : gmap string value).
    (* {"status": "success", "data": {"token": ..., "user": ...}} *)

(** ** Config *)

Definition JWT_SECRET (environ : gmap string string) : string :=
  default "change_this_secret_in_prod" (environ !! "JWT_SECRET").
Definition JWT_ALGO : string := "HS256".
Definition JWT_EXPIRE_DAYS : Z := 10.
Definition UPLOAD_DIR : string := "uploads".

(** A [datetime] is a number of microseconds since the epoch, a
    [timedelta] a number of microseconds. *)
Definition timedelta (days : Z) : Z := days * 86400000000.

(** ** The handlers *)

Section Handlers.
Context `{Pydantic} `{Bcrypt} `{PyJWT} `{FileSystem}.

Record world := {
  users_coll : list document;
  uploads : FS
}.

(** State and exceptions: a computation returns or raises, and leaves a
    world behind either way. *)
Definition M (A : Type) : Type := world -> result A * world.

#[global] Instance M_ret : MRet M := fun A a w => (Returned a, w).

#[global] Instance M_bind : MBind M := fun A B f m w =>
  match m w with
  | (Returned a, w') => f a w'
  | (Raised e, w') => (Raised e, w')
  end.

#[global] Instance M_fmap : FMap M := fun A B f m w =>
  match m w with
  | (Returned a, w') => (Returned (f a), w')
  | (Raised e, w') => (Raised e, w')
  end.

Definition raise {A} (e : exn) : M A := fun w => (Raised e, w).

Definition with_coll {A} (op : list document -> list document * A) : M A :=
  fun w => let '(coll, a) := op (users_coll w) in
           (Returned a, {| users_coll := coll; uploads := uploads w |}).

Definition request_form (request : request) : M form_data :=
  match form request with
  | Some items => mret items
  | None => raise MultiPartException
  end.

(** Lines 87-92 and 226-231: the upload is written under [UPLOAD_DIR]
    and its path stands for it. *)
Definition save_upload (filename : string) (content : bytes) : M string :=
  let file_path := path_join UPLOAD_DIR filename in
  fun w => match write_file file_path content (uploads w) with
           | Some fs => (Returned file_path,
                         {| users_coll := users_coll w; uploads := fs |})
           | None => (Raised OSError, w)
           end.

(** [hashed_pw.decode("utf-8")] of a fresh hash of [plaintext]. *)
Definition hash_password (plaintext : string) (gensalt : salt) : M string :=
  let hashed_pw := hashpw (encode_utf8 plaintext) gensalt in
  match decode_utf8 hashed_pw with
  | Some s => mret s
  | None => raise UnicodeDecodeError
  end.

(** *** [signup] *)

(** The loop of lines 82-95. *)
Fixpoint signup_fields (items : form_data) (data : gmap string value)
    : M (gmap string value) :=
  match items with
  | [] => mret data
  | (key, Upload filename content) :: rest =>
      file_path ← save_upload filename content;
      signup_fields rest (<[key := VStr file_path]> data)
  | (key, Text s) :: rest =>
      signup_fields rest (<[key := VStr s]> data)
  end.

(** Step 1, lines 72-98: the body is read according to the content type;
    [None] stands for the unsupported content type. A JSON body that is
    not an object makes the call of [SignupModel] raise, before any
    validation. *)
Definition signup_read_body (request : request) : M (option (gmap string value)) :=
  let content_type := default "" (content_type request) in
  if contains "application/json" content_type then
    match json request with
    | JObject data => mret (Some data)
    | JNotObject => raise TypeError
    | JInvalid => raise JSONDecodeError
    end
  else if contains "multipart/form-data" content_type
          || contains "application/x-www-form-urlencoded" content_type then
    items ← request_form request;
    data ← signup_fields items ∅;
    mret (Some data)
  else mret None.

Definition signup (request : request) (gensalt : salt) (oid : string) : M response :=
  body ← signup_read_body request;
  match body with
  | None => mret (RError "Unsupported content type" None)
  | Some data =>
      match SignupModel_validate data with
      | inl errors => mret (RError "Validation failed" (Some errors))
      | inr valid =>
          hashed_pw ← hash_password (password valid) gensalt;
          let doc := <["password" := VStr hashed_pw]> (model_dump valid) in
          _ ← with_coll (fun coll => (insert_one oid doc coll, tt));
          mret (RSignup "Signup successful" oid)
      end
  end.

(** *** [login] *)

Definition failure (msg : string) : M response := mret (RFailure msg None).

Definition login (environ : gmap string string) (request : request)
    (utcnow : Z) : M response :=
  let content_type := default "" (content_type request) in
  if negb (contains "multipart/form-data" content_type) then
    failure "invalid content-type"
  else
    form ← request_form request;
    let email := form_get "email" form in
    let password := form_get "password" form in
    if falsy_field email || falsy_field password then
      failure "No email or password provided"
    else
      user ← match email with
             | Some (Text email) =>
                 with_coll (fun coll => (coll, find_one (VStr email) coll))
             | _ => raise InvalidDocument
             end;
      match user with
      | None => failure "invalid username"
      | Some user =>
          let stored_hash := fields user !! "password" in
          if falsy stored_hash then failure "invalid password"
          else
            password_bytes ← match password with
                             | Some (Text password) => mret (encode_utf8 password)
                             | _ => raise AttributeError
                             end;
            stored_hash_bytes ← match stored_hash with
                                | Some (VStr stored_hash) => mret (encode_utf8 stored_hash)
                                | _ => raise AttributeError
                                end;
            match checkpw password_bytes stored_hash_bytes with
            | None => raise ValueError
            | Some false => failure "invalid password"
            | Some true =>
                let user_id := _id user in
                let user := <["_id" := VStr user_id]> (delete "password" (fields user)) in
                let payload :=
                  [ ("user_id", CValue (Some (VStr user_id)));
                    ("email", CValue (user !! "email"));
                    ("exp", CDatetime (utcnow + timedelta JWT_EXPIRE_DAYS)) ] in
                let token := jwt_encode payload (JWT_SECRET environ) JWT_ALGO in
                mret (RLogin token user)
            end
      end.

(** *** [update_profile] *)

(** The loop of lines 222-236: an upload without a file name is skipped. *)
Fixpoint update_fields (items : form_data) (data : gmap string value)
    : M (gmap string value) :=
  match items with
  | [] => mret data
  | (key, Upload filename content) :: rest =>
      if negb (String.length filename =? 0)%nat then
        file_path ← save_upload filename content;
        update_fields rest (<[key := VStr file_path]> data)
      else update_fields rest data
  | (key, Text s) :: rest =>
      update_fields rest (<[key := VStr s]> data)
  end.

(** Lines 248-259: the stored picture and the stored password stand in
    for the ones the submission lacks; the flag is [skip_hash]. *)
Definition merge (data : gmap string value) (existing_user : document)
    : gmap string value * bool :=
  let data :=
    match data !! "profilePic", fields existing_user !! "profilePic" with
    | None, Some pic => <["profilePic" := pic]> data
    | _, _ => data
    end in
  if falsy (data !! "password")
  then (<["password" := default (VStr "") (fields existing_user !! "password")]> data, true)
  else (data, false).

Definition update_profile (request : request) (gensalt : salt) : M response :=
  let content_type := default "" (content_type request) in
  if negb (contains "multipart/form-data" content_type) then
    failure "invalid content-type"
  else
    form ← request_form request;
    data ← update_fields form ∅;
    match data !! "email" with
    | None => failure "email is required to update profile"
    | Some email =>
        if negb (truthy email) then failure "email is required to update profile"
        else
          existing_user ← with_coll (fun coll => (coll, find_one email coll));
          match existing_user with
          | None => failure "user not found"
          | Some existing_user =>
              let '(data, skip_hash) := merge data existing_user in
              match SignupModel_validate data with
              | inl errors => mret (RFailure "Validation failed" (Some errors))
              | inr valid =>
                  let update_doc := model_dump valid in
                  new_password ←
                    (if skip_hash
                     then mret (default (VStr "") (fields existing_user !! "password"))
                     else VStr <$> hash_password (password valid) gensalt);
                  let update_doc := <["password" := new_password]> update_doc in
                  matched_count ← with_coll (update_one email update_doc);
                  if (matched_count =? 0)%nat then failure "user not found for update"
                  else mret (RSuccess "Profile updated successfully")
              end
          end
    end.

(** *** [delete_profile] *)

Definition delete_profile (email : string) : M response :=
  if (String.length email =? 0)%nat then failure "email is required"
  else
    existing_user ← with_coll (fun coll => (coll, find_one (VStr email) coll));
    match existing_user with
    | None => failure "user not found"
    | Some _ =>
        deleted_count ← with_coll (delete_one (VStr email));
        if (deleted_count =? 0)%nat then failure "user not found"
        else mret (RSuccess "Profile deleted successfully")
    end.

End Handlers.

(** Unfolds the monad of the handlers. *)
Ltac run := unfold mbind, M_bind, mret, M_ret, raise, failure, with_coll.

(** ** Notions used to state the properties *)

(** The position of the document [find_one] returns. *)
Fixpoint first_match (email : value) (coll : list document) : option nat :=
  match coll with
  | [] => None
  | doc :: rest => if matches email doc then Some 0%nat else S <$> first_match email rest
  end.

(** The entry the loop of [update_profile] stores for a form field, if any. *)
Definition update_entry (v : form_value) : option value :=
  match v with
  | Text s => Some (VStr s)
  | Upload filename _ =>
      if negb (String.length filename =? 0)%nat
      then Some (VStr (path_join UPLOAD_DIR filename))
      else None
  end.

(** The mapping the loop of [update_profile] builds, without its writes. *)
Fixpoint update_mapping (items : form_data) (data : gmap string value)
    : gmap string value :=
  match items with
  | [] => data
  | (key, v) :: rest =>
      update_mapping rest
        match update_entry v with
        | Some x => <[key := x]> data
        | None => data
        end
  end.

(** A login request as the client sends it: a multipart form with a text
    [email] and a text [password]. *)
Definition login_request (request : request) (email password : string) : Prop :=
  contains "multipart/form-data" (default "" (content_type request)) = true /\
  exists items, form request = Some items /\
    form_get "email" items = Some (Text email) /\
    form_get "password" items = Some (Text password).

(** The user object and the claims of the token that a successful [login]
    builds from the matched document (lines 179-189). *)
Definition login_user (user : document) : gmap string value :=
  <["_id" := VStr (_id user)]> (delete "password" (fields user)).

Definition login_payload (user : document) (utcnow : Z) : list (string * claim_value) :=
  [ ("user_id", CValue (Some (VStr (_id user))));
    ("email", CValue (login_user user !! "email"));
    ("exp", CDatetime (utcnow + timedelta JWT_EXPIRE_DAYS)) ].

Section Hashes.
Context `{Bcrypt}.

(** A stored password that is the text of a hash. *)
Definition is_hash (v : value) : Prop :=
  exists h p s, v = VStr h /\ encode_utf8 h = hashpw p s.

(** Every record of the collection holds a hash as its password. *)
Definition passwords_hashed (coll : list document) : Prop :=
  forall doc, In doc coll ->
    exists v, fields doc !! "password" = Some v /\ is_hash v.
End Hashes.

(** ** A small instance of the interfaces

    The theorems below are exercised on concrete requests with these
    stand-ins: decimal parsing, an address check that looks for the at
    sign, a hasher whose digest is as long as the password, a token that
    lists the claims it carries, and a directory of files. *)

Definition digit (c : ascii) : option Z :=
  let n := Z.of_N (N_of_ascii c) in
  if (48 <=? n) && (n <=? 57) then Some (n - 48) else None.

Fixpoint digits (s : string) (acc : Z) : option Z :=
  match s with
  | EmptyString => Some acc
  | String c rest =>
      match digit c with
      | Some d => digits rest (10 * acc + d)
      | None => None
      end
  end.

Definition sample_pydantic : Pydantic := {|
  int_of_str s := if (String.length s =? 0)%nat then None else digits s 0;
  validate_email s := if contains "@" s then Some s else None
|}.

Definition sample_hashpw (p : bytes) (n : nat) : bytes :=
  ("$"%byte :: repeat "."%byte n ++ "$"%byte :: repeat "x"%byte (length p)).

(** The digest of a sample hash, found after its salt. *)
Fixpoint sample_digest (h : bytes) : option bytes :=
  match h with
  | [] => None
  | b :: rest =>
      if Byte.eqb b "$" then Some rest
      else if Byte.eqb b "." then sample_digest rest
      else None
  end.

Definition sample_checkpw (p h : bytes) : option bool :=
  match h with
  | b :: rest =>
      if Byte.eqb b "$" then
        match sample_digest rest with
        | Some d => Some (forallb (Byte.eqb "x") d && (length d =? length p)%nat)
        | None => None
        end
      else None
  | [] => None
  end.

Definition sample_bcrypt : Bcrypt := {|
  salt := nat;
  hashpw := sample_hashpw;
  checkpw := sample_checkpw
|}.

Definition sample_jwt : PyJWT := {|
  jwt_encode payload key alg :=
    (alg ++ "." ++ String.concat "," (map fst payload) ++ "." ++ key)%string
|}.

Definition sample_fs : FileSystem := {|
  FS := gmap string bytes;
  write_file path content fs :=
    if endswith path "/" then None else Some (<[path := content]> fs)
|}.

#[local] Existing Instances sample_pydantic sample_bcrypt sample_jwt sample_fs.

Definition sample_world (coll : list document) : world :=
  {| users_coll := coll; uploads := (∅ : gmap string bytes) |}.

Definition form_request (items : form_data) : request :=
  {| content_type := Some "multipart/form-data; boundary=x";
     json := JInvalid;
     form := Some items |}.

Definition json_request (data : gmap string value) : request :=
  {| content_type := Some "application/json";
     json := JObject data;
     form := None |}.

Definition ada : gmap string value :=
  <["firstName" := VStr "Ada"]>
  (<["lastName" := VStr "Lovelace"]>
  (<["age" := VInt 36]>
  (<["email" := VStr "ada@example.com"]>
  (<["password" := VStr "secret1"]>
  (<["mobileNo" := VStr "0123456789"]>
  (<["profilePic" := VStr "uploads/ada.png"]> ∅)))))).

(** The fields of an update form other than the password and the picture. *)
Definition profile_form : form_data :=
  [ ("firstName", Text "Ada"); ("lastName", Text "Lovelace"); ("age", Text "37");
    ("email", Text "ada@example.com"); ("mobileNo", Text "0123456789") ].

Definition login_form (email password : string) : form_data :=
  [ ("email", Text email); ("password", Text password) ].

Definition text_request : request :=
  {| content_type := Some "text/plain"; json := JInvalid; form := None |}.

(** The collection after Ada signed up, once and twice. *)
Definition ada_hash : string := "$...$xxxxxxx".

Definition ada_doc (oid : string) : document :=
  {| _id := oid; fields := <["password" := VStr ada_hash]> ada |}.

Definition ada_world : world :=
  (signup (json_request ada) 3%nat "65a1" (sample_world [])).2.

Definition ada_twice : world :=
  (signup (json_request ada) 3%nat "65a2" ada_world).2.

(** A record that was not written by [signup]: its password is not a hash. *)
Definition legacy_doc (stored : option value) : document :=
  {| _id := "64ff";
     fields := match stored with
               | Some v => <["password" := v]> {["email" := VStr "old@example.com"]}
               | None => {["email" := VStr "old@example.com"]}
               end |}.

(** The errors a field contributes, and the errors collected so far. *)
Definition field_errors {A} (x : error_details + A) : list error_details :=
  match x with
  | inl e => [e]
  | inr _ => []
  end.

Definition collected {B} (r : list error_details + B) : list error_details :=
  match r with
  | inl es => es
  | inr _ => []
  end.

(** A failed validation reports at least one error. *)
Definition sound {B} (r : list error_details + B) : Prop :=
  match r with
  | inl es => es <> []
  | inr _ => True
  end.

(** ** Notions for the further properties *)

(** The entry the loop of [signup] stores for a form field. *)
Definition signup_entry (v : form_value) : value :=
  match v with
  | Text s => VStr s
  | Upload filename _ => VStr (path_join UPLOAD_DIR filename)
  end.

(** The mapping the loop of [signup] builds, without its writes. *)
Fixpoint signup_mapping (items : form_data) (data : gmap string value)
    : gmap string value :=
  match items with
  | [] => data
  | (key, v) :: rest => signup_mapping rest (<[key := signup_entry v]> data)
  end.

(** The fields of [SignupModel], in the order of the class. *)
Definition model_fields : list string :=
  ["firstName"; "lastName"; "age"; "email"; "password"; "mobileNo"; "profilePic"].

(** A record as [model_dump] shapes it: the text fields are [str] within
    the bounds of the class, the age is an [int] from 1 to 120. *)
Definition int_between (lo hi : Z) (v : value) : bool :=
  match v with
  | VInt n => (lo <=? n) && (n <=? hi)
  | _ => false
  end.

Definition field_is (ok : value -> bool) (doc : document) (key : string) : bool :=
  match fields doc !! key with
  | Some v => ok v
  | None => false
  end.

Definition record_ok (doc : document) : bool :=
  field_is (chars_between 2 30) doc "firstName" &&
  field_is (chars_between 1 30) doc "lastName" &&
  field_is (int_between 1 120) doc "age" &&
  field_is (chars_at_least 0) doc "email" &&
  field_is (chars_at_least 0) doc "password" &&
  field_is (chars_between 10 15) doc "mobileNo" &&
  field_is (chars_at_least 0) doc "profilePic".

Section ReadOnly.
Context `{FileSystem}.

(** A computation that leaves the world as it found it. *)
Definition read_only {A} (m : M A) : Prop := forall w, (m w).2 = w.

End ReadOnly.

(** A signup form with an uploaded picture, and a record with a field
    that is not of the model. *)
Definition signup_form (filename : string) : form_data :=
  [ ("firstName", Text "Ada"); ("lastName", Text "Lovelace"); ("age", Text "36");
    ("email", Text "ada@example.com"); ("password", Text "secret1");
    ("mobileNo", Text "0123456789"); ("profilePic", Upload filename []) ].

Definition urlencoded_request (items : form_data) : request :=
  {| content_type := Some "application/x-www-form-urlencoded";
     json := JInvalid;
     form := Some items |}.

Definition tagged_world : world :=
  sample_world [ {| _id := "65a1";
                    fields := <["role" := VStr "admin"]> (fields (ada_doc "65a1")) |};
                 {| _id := "65b7";
                    fields := <["email" := VStr "bob@example.com"]> (fields (ada_doc "65b7")) |} ].

(** * Properties *)

(** ** UTF-8 *)

Lemma decode_encode_char (c : ascii) (rest : bytes) :
  decode_utf8 (encode_char c ++ rest) = String c <$> decode_utf8 rest.
Proof. destruct c as [[] [] [] [] [] [] [] []]; reflexivity. Qed.

Lemma decode_encode (s : string) : decode_utf8 (encode_utf8 s) = Some s.
Proof.
  induction s as [|c s IH]; [reflexivity|].
  cbn [encode_utf8]. rewrite decode_encode_char, IH. reflexivity.
Qed.

(** What decodes, encodes back to the same bytes. *)
Lemma encode_decode_aux (n : nat) : forall (bs : bytes) (s : string),
  (length bs <= n)%nat -> decode_utf8 bs = Some s -> encode_utf8 s = bs.
Proof.
  induction n as [|n IH]; intros bs s Hlen.
  - destruct bs; [|cbn in Hlen; lia]. intros [= <-]. reflexivity.
  - destruct bs as [|b rest]; [intros [= <-]; reflexivity|].
    cbn in Hlen. cbn [decode_utf8].
    destruct (Byte.to_N b <? 128)%N eqn:E1.
    + destruct (decode_utf8 rest) as [t|] eqn:Et; [|discriminate].
      intros [= <-]. cbn [encode_utf8].
      rewrite (IH rest t) by (lia || assumption).
      destruct b; (discriminate E1 || reflexivity).
    + destruct ((Byte.to_N b =? 194)%N || (Byte.to_N b =? 195)%N) eqn:E2; [|discriminate].
      destruct rest as [|b2 rest]; [discriminate|].
      destruct ((128 <=? Byte.to_N b2)%N && (Byte.to_N b2 <? 192)%N) eqn:E3; [|discriminate].
      destruct (decode_utf8 rest) as [t|] eqn:Et; [|discriminate].
      intros [= <-]. cbn [encode_utf8]. cbn in Hlen.
      rewrite (IH rest t) by (lia || assumption).
      destruct b; try discriminate E2;
        destruct b2; (discriminate E3 || reflexivity).
Qed.

Lemma encode_decode (bs : bytes) (s : string) :
  decode_utf8 bs = Some s -> encode_utf8 s = bs.
Proof. apply (encode_decode_aux (length bs)). lia. Qed.

(** ** Validation *)

Section ValidationFacts.
Context `{Pydantic}.

Lemma collect_collected {A B} (f : list error_details + (A -> B))
    (x : error_details + A) :
  collected (collect f x) = (collected f ++ field_errors x).
Proof.
  destruct f as [es|g], x as [e|a]; cbn; try reflexivity.
  symmetry. apply app_nil_r.
Qed.

Lemma collect_sound {A B} (f : list error_details + (A -> B))
    (x : error_details + A) :
  sound f -> sound (collect f x).
Proof.
  destruct f as [es|g], x as [e|a]; cbn; auto; try discriminate.
  intros _ E. destruct es; discriminate.
Qed.

Lemma collect_inr {A B} (f : list error_details + (A -> B))
    (x : error_details + A) (b : B) :
  collect f x = inr b -> exists g a, f = inr g /\ x = inr a /\ b = g a.
Proof.
  destruct f as [es|g], x as [e|a]; cbn; try discriminate.
  intros [= <-]. eauto.
Qed.

Lemma validate_field_inr {A} (data : gmap string value) (name : string)
    (validator : value -> error_type + A) (a : A) :
  validate_field data name validator = inr a ->
  exists v, data !! name = Some v /\ validator v = inr a.
Proof.
  unfold validate_field. destruct (data !! name) as [v|]; [|discriminate].
  destruct (validator v) eqn:E; [discriminate|]. intros [= <-]. eauto.
Qed.

Lemma validate_str_inr lo hi (v : value) (s : string) :
  validate_str lo hi v = inr s ->
  v = VStr s /\ (lo <= String.length s)%nat.
Proof.
  destruct v as [| | |s']; cbn -[Nat.ltb Nat.leb]; try discriminate.
  destruct (Nat.ltb_spec (String.length s') lo); [discriminate|].
  destruct hi as [m|].
  - destruct (m <? String.length s')%nat; [discriminate|].
    intros [= <-]. auto.
  - intros [= <-]. auto.
Qed.

(** Each validator accepts exactly the values that meet the constraint
    of the schema. *)
Lemma validate_str_between lo hi (v : value) :
  chars_between lo hi v = true <->
  exists s, validate_str lo (Some hi) v = inr s.
Proof.
  destruct v as [| | |s]; cbn -[Nat.ltb Nat.leb]; try (split; [discriminate|intros [? [=]]]).
  destruct (Nat.ltb_spec (String.length s) lo), (Nat.ltb_spec hi (String.length s));
    rewrite andb_true_iff, !Nat.leb_le;
    split; try (intros [? [=]]); try lia; eauto.
Qed.

Lemma validate_str_at_least lo (v : value) :
  chars_at_least lo v = true <-> exists s, validate_str lo None v = inr s.
Proof.
  destruct v as [| | |s]; cbn -[Nat.ltb Nat.leb]; try (split; [discriminate|intros [? [=]]]).
  destruct (Nat.ltb_spec (String.length s) lo); rewrite Nat.leb_le;
    split; try (intros [? [=]]); try lia; eauto.
Qed.

Lemma validate_int_between lo hi (v : value) :
  integer_between lo hi v = true <-> exists n, validate_int lo hi v = inr n.
Proof.
  unfold integer_between, validate_int.
  destruct (lax_int v) as [e|n]; [split; [discriminate|intros [? [=]]]|].
  destruct (Z.ltb_spec n lo), (Z.ltb_spec hi n);
    rewrite andb_true_iff, !Z.leb_le;
    split; try (intros [? [=]]); try lia; eauto.
Qed.

Lemma validate_email_syntax (v : value) :
  email_syntax v = true <-> exists e, validate_EmailStr v = inr e.
Proof.
  destruct v as [| | |s]; cbn -[Nat.ltb Nat.leb]; try (split; [discriminate|intros [? [=]]]).
  rewrite bool_decide_eq_true.
  destruct (validate_email s) as [e|]; split; eauto.
  - intros [? [=]].
  - intros [? [=]].
Qed.

(** A field contributes one error, under its own name, exactly when it
    is violated. *)
Lemma field_errors_violates {A} (data : gmap string value) (name : string)
    (validator : value -> error_type + A) (ok : value -> bool) :
  (forall v, ok v = true <-> exists a, validator v = inr a) ->
  map err_loc (field_errors (validate_field data name validator)) =
  if violates data (name, ok) then [name] else [].
Proof.
  intros Hok. unfold validate_field, violates. cbn.
  destruct (data !! name) as [v|]; [|reflexivity].
  specialize (Hok v). destruct (validator v) as [e|a], (ok v); cbn; try reflexivity.
  - destruct Hok as [Hok _]. destruct (Hok eq_refl) as [? [=]].
  - destruct Hok as [_ Hok]. discriminate Hok. eauto.
Qed.

Lemma SignupModel_validate_errors (data : gmap string value) :
  sound (SignupModel_validate data) /\
  map err_loc (collected (SignupModel_validate data)) = violated_fields data.
Proof.
  split.
  - unfold SignupModel_validate. repeat apply collect_sound. exact I.
  - unfold SignupModel_validate. rewrite !collect_collected, !map_app.
    rewrite (field_errors_violates data "firstName" _ (chars_between 2 30))
      by apply validate_str_between.
    rewrite (field_errors_violates data "lastName" _ (chars_between 1 30))
      by apply validate_str_between.
    rewrite (field_errors_violates data "age" _ (integer_between 1 120))
      by apply validate_int_between.
    rewrite (field_errors_violates data "email" _ email_syntax)
      by apply validate_email_syntax.
    rewrite (field_errors_violates data "password" _ (chars_at_least 6))
      by apply validate_str_at_least.
    rewrite (field_errors_violates data "mobileNo" _ (chars_between 10 15))
      by apply validate_str_between.
    rewrite (field_errors_violates data "profilePic" _ (chars_at_least 0))
      by apply validate_str_at_least.
    unfold violated_fields, UserRecord_schema. cbn [List.filter collected map app].
    repeat match goal with
           | |- context [violates data ?c] => destruct (violates data c)
           end; reflexivity.
Qed.

Lemma SignupModel_validate_inl (data : gmap string value) errors :
  SignupModel_validate data = inl errors ->
  errors <> [] /\ map err_loc errors = violated_fields data.
Proof.
  intros E. destruct (SignupModel_validate_errors data) as [Hs Hm].
  rewrite E in Hs, Hm. auto.
Qed.

Lemma SignupModel_validate_inr (data : gmap string value) valid :
  SignupModel_validate data = inr valid ->
  violated_fields data = [] /\
  data !! "email" <> None /\
  data !! "password" = Some (VStr (password valid)) /\
  (6 <= String.length (password valid))%nat /\
  data !! "profilePic" = Some (VStr (profilePic valid)).
Proof.
  intros E. destruct (SignupModel_validate_errors data) as [_ Hm].
  rewrite E in Hm. split; [symmetry; exact Hm|].
  unfold SignupModel_validate in E.
  apply collect_inr in E as (g7 & pic & E & Hpic & ->).
  apply collect_inr in E as (g6 & mob & E & Hmob & ->).
  apply collect_inr in E as (g5 & pw & E & Hpw & ->).
  apply collect_inr in E as (g4 & em & E & Hem & ->).
  apply collect_inr in E as (g3 & ag & E & Hag & ->).
  apply collect_inr in E as (g2 & ln & E & Hln & ->).
  apply collect_inr in E as (g1 & fn & E & Hfn & ->).
  injection E as <-. cbn.
  apply validate_field_inr in Hpic as (vpic & Hpic & Vpic).
  apply validate_field_inr in Hpw as (vpw & Hpw & Vpw).
  apply validate_field_inr in Hem as (vem & Hem & _).
  apply validate_str_inr in Vpic as [-> _].
  apply validate_str_inr in Vpw as [-> ?].
  rewrite Hem. auto.
Qed.

Lemma violated_fields_NoDup (data : gmap string value) :
  NoDup (violated_fields data).
Proof.
  unfold violated_fields, UserRecord_schema. cbn [List.filter].
  repeat match goal with
         | |- context [violates data ?c] => destruct (violates data c)
         end; cbn; apply NoDup_ListNoDup;
    repeat (constructor; [cbn; intros Hin; repeat destruct Hin as [Hin|Hin]; try discriminate; auto|]);
    constructor.
Qed.

End ValidationFacts.

(** ** The collection *)

Lemma find_one_matches email coll doc :
  find_one email coll = Some doc -> fields doc !! "email" = Some email.
Proof.
  induction coll as [|d coll IH]; cbn; [discriminate|].
  destruct (matches email d) eqn:E; [|exact IH].
  intros [= <-]. unfold matches in E. apply bool_decide_eq_true in E. exact E.
Qed.

Lemma find_one_In email coll doc :
  find_one email coll = Some doc -> In doc coll.
Proof.
  induction coll as [|d coll IH]; cbn; [discriminate|].
  destruct (matches email d); [intros [= <-]; auto|auto].
Qed.

Lemma find_one_None_filter email coll :
  find_one email coll = None <-> List.filter (matches email) coll = [].
Proof.
  induction coll as [|d coll IH]; cbn; [tauto|].
  destruct (matches email d); [split; discriminate|exact IH].
Qed.

(** [update_one] rewrites the document [find_one] returns, in place. *)
Lemma update_one_Some email update_doc coll doc :
  find_one email coll = Some doc ->
  exists i, first_match email coll = Some i /\ coll !! i = Some doc /\
    update_one email update_doc coll =
    (<[i := {| _id := _id doc; fields := update_doc ∪ fields doc |}]> coll, 1%nat).
Proof.
  induction coll as [|d coll IH]; cbn; [discriminate|].
  destruct (matches email d).
  - intros [= <-]. exists 0%nat. auto.
  - intros E. destruct (IH E) as (i & -> & Hi & ->). exists (S i). auto.
Qed.

(** A field whose new value is the stored one is the same in every record
    after [update_one]. *)
Lemma update_one_keeps email update_doc coll doc (k : string) :
  find_one email coll = Some doc ->
  update_doc !! k = fields doc !! k ->
  map (fun d => fields d !! k) (update_one email update_doc coll).1 =
  map (fun d => fields d !! k) coll.
Proof.
  induction coll as [|d coll IH]; cbn; [discriminate|].
  destruct (matches email d).
  - intros [= <-] E. cbn. f_equal.
    rewrite lookup_union, E. destruct (fields d !! k); reflexivity.
  - intros E1 E2. specialize (IH E1 E2).
    destruct (update_one email update_doc coll) as [rest n]. cbn in *.
    f_equal. exact IH.
Qed.

(** [delete_one] removes the document [find_one] returns, and only it. *)
Lemma delete_one_Some email coll doc :
  find_one email coll = Some doc ->
  exists pre post, coll = (pre ++ doc :: post) /\
    find_one email pre = None /\
    delete_one email coll = ((pre ++ post), 1%nat).
Proof.
  induction coll as [|d coll IH]; cbn; [discriminate|].
  destruct (matches email d) eqn:Ed.
  - intros [= <-]. exists [], coll. auto.
  - intros E. destruct (IH E) as (pre & post & -> & Hpre & ->).
    exists (d :: pre), post. cbn. rewrite Ed. auto.
Qed.

Lemma find_one_app email pre post :
  find_one email pre = None ->
  find_one email (pre ++ post) = find_one email post.
Proof.
  induction pre as [|d pre IH]; cbn; [reflexivity|].
  destruct (matches email d); [discriminate|exact IH].
Qed.

Lemma filter_matches_single email pre doc post :
  find_one email pre = None ->
  length (List.filter (matches email) (pre ++ doc :: post)) = 1%nat ->
  matches email doc = true ->
  find_one email (pre ++ post) = None.
Proof.
  intros Hpre Hlen Hdoc. rewrite find_one_app by exact Hpre.
  apply find_one_None_filter.
  rewrite List.filter_app in Hlen. cbn in Hlen. rewrite Hdoc in Hlen.
  apply find_one_None_filter in Hpre. rewrite Hpre in Hlen. cbn in Hlen.
  destruct (List.filter (matches email) post); [reflexivity|discriminate].
Qed.

(** ** The update mapping *)

(** What the entry of [key] satisfies at the start, and after each store
    under [key], it satisfies at the end. *)
Lemma update_mapping_lookup_inv (P : option value -> Prop) (key : string)
    (items : form_data) (data : gmap string value) :
  P (data !! key) ->
  (forall v x, In (key, v) items -> update_entry v = Some x -> P (Some x)) ->
  P (update_mapping items data !! key).
Proof.
  revert data. induction items as [|[k v] items IH]; intros data H0 Hins; [exact H0|].
  cbn [update_mapping]. apply IH.
  - destruct (update_entry v) as [x|] eqn:Ev; [|exact H0].
    destruct (decide (k = key)) as [->|Hne].
    + rewrite lookup_insert_eq. apply (Hins v x); [left; reflexivity|exact Ev].
    + rewrite lookup_insert_ne by exact Hne. exact H0.
  - intros v' x' Hin. apply Hins. right. exact Hin.
Qed.

Lemma update_mapping_lookup_NoDup (key : string) (v : form_value) (x : value)
    (items : form_data) (data : gmap string value) :
  NoDup (map fst items) ->
  In (key, v) items ->
  update_entry v = Some x ->
  update_mapping items data !! key = Some x.
Proof.
  revert data. induction items as [|[k v'] items IH]; intros data Hnd Hin Hv; [destruct Hin|].
  cbn in Hnd. apply NoDup_cons in Hnd as [Hk Hnd].
  destruct Hin as [[= -> ->]|Hin].
  - cbn [update_mapping]. rewrite Hv.
    apply (update_mapping_lookup_inv (fun o => o = Some x)).
    + apply lookup_insert_eq.
    + intros v2 x2 Hin2 _. exfalso. apply Hk.
      apply list_elem_of_In. apply (in_map fst) in Hin2. exact Hin2.
  - cbn [update_mapping]. apply IH; assumption.
Qed.

(** ** The handlers *)

Section HandlerFacts.
Context `{Pydantic} `{Bcrypt} `{PyJWT} `{FileSystem}.

Lemma save_upload_coll filename content w r w' :
  save_upload filename content w = (r, w') -> users_coll w' = users_coll w.
Proof.
  unfold save_upload.
  destruct (write_file _ content (uploads w)); intros [= <- <-]; reflexivity.
Qed.

Lemma signup_fields_coll items : forall data w r w',
  signup_fields items data w = (r, w') -> users_coll w' = users_coll w.
Proof.
  induction items as [|[key [s|filename content]] items IH]; intros data w r w'.
  - intros [= <- <-]. reflexivity.
  - cbn [signup_fields]. apply IH.
  - cbn [signup_fields]. run.
    destruct (save_upload filename content w) as [[p|e] w1] eqn:E.
    + intros E'. apply IH in E'. apply save_upload_coll in E. congruence.
    + intros [= <- <-]. apply save_upload_coll in E. exact E.
Qed.

Lemma signup_read_body_coll request w r w' :
  signup_read_body request w = (r, w') -> users_coll w' = users_coll w.
Proof.
  unfold signup_read_body, request_form.
  destruct (contains "application/json" _).
  - destruct (json request); intros [= <- <-]; reflexivity.
  - destruct (_ || _); [|intros [= <- <-]; reflexivity].
    run. destruct (form request) as [items|]; [|intros [= <- <-]; reflexivity].
    destruct (signup_fields items ∅ w) as [[d|e] w1] eqn:E;
      intros [= <- <-]; exact (signup_fields_coll _ _ _ _ _ E).
Qed.

(** The loop of [update_profile] builds [update_mapping] and leaves the
    collection alone. *)
Lemma update_fields_spec items : forall data w r w',
  update_fields items data w = (r, w') ->
  users_coll w' = users_coll w /\
  forall d, r = Returned d -> d = update_mapping items data.
Proof.
  induction items as [|[key [s|filename content]] items IH]; intros data w r w'.
  - intros [= <- <-]. split; [reflexivity|]. intros d [= <-]. reflexivity.
  - cbn [update_fields update_mapping update_entry]. apply IH.
  - cbn [update_fields update_mapping update_entry].
    destruct (negb (String.length filename =? 0)%nat); [|apply IH].
    run. destruct (save_upload filename content w) as [[p|e] w1] eqn:E.
    + assert (p = path_join UPLOAD_DIR filename) as ->.
      { unfold save_upload in E.
        destruct (write_file _ content (uploads w)); congruence. }
      intros E'. apply IH in E' as [Hc Hd]. apply save_upload_coll in E.
      split; [congruence|exact Hd].
    + intros [= <- <-]. apply save_upload_coll in E.
      split; [exact E|discriminate].
Qed.

(** A fresh hash is stored as the text of [hashpw]'s output. *)
Lemma hash_password_spec plaintext gensalt w r w' :
  hash_password plaintext gensalt w = (r, w') ->
  w' = w /\
  forall h, r = Returned h ->
    encode_utf8 h = hashpw (encode_utf8 plaintext) gensalt.
Proof.
  unfold hash_password.
  destruct (decode_utf8 _) as [s|] eqn:E; intros [= <- <-];
    (split; [reflexivity|]); [|discriminate].
  intros h [= <-]. apply encode_decode. exact E.
Qed.

Lemma hash_password_returns `{!BcryptLaws} plaintext gensalt w :
  exists h, hash_password plaintext gensalt w = (Returned h, w) /\
    encode_utf8 h = hashpw (encode_utf8 plaintext) gensalt.
Proof.
  unfold hash_password.
  destruct (hashpw_text (encode_utf8 plaintext) gensalt) as [h Eh].
  rewrite Eh, decode_encode. exists h. auto.
Qed.

(** A valid submission is hashed and inserted. *)
Lemma signup_valid `{!BcryptLaws} request gensalt oid w w1 data valid :
  signup_read_body request w = (Returned (Some data), w1) ->
  SignupModel_validate data = inr valid ->
  exists h,
    encode_utf8 h = hashpw (encode_utf8 (password valid)) gensalt /\
    signup request gensalt oid w =
    (Returned (RSignup "Signup successful" oid),
     {| users_coll :=
          insert_one oid (<["password" := VStr h]> (model_dump valid)) (users_coll w);
        uploads := uploads w1 |}).
Proof.
  intros Eb Ev. unfold signup. run. rewrite Eb, Ev.
  destruct (hash_password_returns (password valid) gensalt w1) as (h & -> & Eh).
  exists h. split; [exact Eh|]. cbn.
  rewrite (signup_read_body_coll _ _ _ _ Eb). reflexivity.
Qed.

(** [signup] writes to the collection only by the insert. *)
Lemma signup_coll request gensalt oid w r w' :
  signup request gensalt oid w = (r, w') ->
  users_coll w' = users_coll w \/
  exists valid h,
    encode_utf8 h = hashpw (encode_utf8 (password valid)) gensalt /\
    users_coll w' =
    insert_one oid (<["password" := VStr h]> (model_dump valid)) (users_coll w).
Proof.
  unfold signup. run.
  destruct (signup_read_body request w) as [[[data|]|e] w1] eqn:Eb;
    pose proof (signup_read_body_coll _ _ _ _ Eb) as Hc;
    try (intros [= <- <-]; left; exact Hc).
  destruct (SignupModel_validate data) as [errors|valid];
    [intros [= <- <-]; left; exact Hc|].
  destruct (hash_password (password valid) gensalt w1) as [[h|e] w2] eqn:Eh;
    apply hash_password_spec in Eh as [-> Eh].
  - cbn. intros [= <- <-]. right. exists valid, h. cbn.
    rewrite Hc. auto.
  - intros [= <- <-]. left. exact Hc.
Qed.

(** The ways [update_profile] ends: nothing is written, or the request
    passed every check and the matched record is rewritten. *)
Lemma update_profile_cases request gensalt w r w' :
  update_profile request gensalt w = (r, w') ->
  (users_coll w' = users_coll w /\
   r <> Returned (RSuccess "Profile updated successfully"))
  \/
  exists items email existing_user valid new_password,
    let data := update_mapping items ∅ in
    form request = Some items /\
    data !! "email" = Some email /\
    truthy email = true /\
    find_one email (users_coll w) = Some existing_user /\
    SignupModel_validate (merge data existing_user).1 = inr valid /\
    (if (merge data existing_user).2
     then new_password = default (VStr "") (fields existing_user !! "password")
     else exists h, new_password = VStr h /\
            encode_utf8 h = hashpw (encode_utf8 (password valid)) gensalt) /\
    r = Returned (RSuccess "Profile updated successfully") /\
    users_coll w' =
    (update_one email (<["password" := new_password]> (model_dump valid))
       (users_coll w)).1.
Proof.
  unfold update_profile, request_form.
  destruct (negb (contains "multipart/form-data" _));
    [intros [= <- <-]; left; split; [reflexivity|discriminate]|].
  run.
  destruct (form request) as [items|];
    [|intros [= <- <-]; left; split; [reflexivity|discriminate]].
  destruct (update_fields items ∅ w) as [[data|e] w1] eqn:Ef;
    apply update_fields_spec in Ef as [Hc Hd];
    [|intros [= <- <-]; left; split; [exact Hc|discriminate]].
  rewrite (Hd data eq_refl). clear Hd data.
  destruct (update_mapping items ∅ !! "email") as [email|] eqn:Ee;
    [|intros [= <- <-]; left; split; [exact Hc|discriminate]].
  destruct (truthy email) eqn:Et; cbn [negb];
    [|intros [= <- <-]; left; split; [exact Hc|discriminate]].
  cbn [fst snd].
  destruct (find_one email (users_coll w1)) as [existing_user|] eqn:Eu;
    [|intros [= <- <-]; left; split; [exact Hc|discriminate]].
  rewrite Hc in Eu.
  destruct (merge (update_mapping items ∅) existing_user) as [data skip_hash] eqn:Em.
  destruct (SignupModel_validate data) as [errors|valid] eqn:Ev;
    [intros [= <- <-]; left; split; [exact Hc|discriminate]|].
  destruct (update_one_Some email
              (<["password" := default (VStr "") (fields existing_user !! "password")]>
                 (model_dump valid)) _ _ Eu) as (i & _ & _ & Eskip).
  destruct skip_hash.
  - cbn. rewrite Hc, Eskip. cbn. intros [= <- <-]. right.
    exists items, email, existing_user, valid,
      (default (VStr "") (fields existing_user !! "password")).
    cbn zeta. rewrite Em. cbn [fst snd]. rewrite Eskip.
    repeat split; auto.
  - unfold fmap, M_fmap.
    destruct (hash_password (password valid) gensalt _) as [[h|e] w2] eqn:Eh;
      apply hash_password_spec in Eh as [-> Eh];
      [|intros [= <- <-]; left; split; [exact Hc|discriminate]].
    destruct (update_one_Some email (<["password" := VStr h]> (model_dump valid))
                _ _ Eu) as (j & _ & _ & Ehash).
    cbn. rewrite Hc, Ehash. cbn. intros [= <- <-]. right.
    exists items, email, existing_user, valid, (VStr h).
    cbn zeta. rewrite Em. cbn [fst snd]. rewrite Ehash.
    repeat split; eauto.
Qed.

End HandlerFacts.

(** ** The sample hasher keeps the contract *)

Lemma ascii_bytes_text (bs : bytes) :
  Forall (fun b => (Byte.to_N b < 128)%N) bs -> exists h, bs = encode_utf8 h.
Proof.
  induction 1 as [|b bs Hb _ [h ->]]; [exists EmptyString; reflexivity|].
  exists (String (ascii_of_byte b) h). cbn [encode_utf8]. f_equal.
  destruct b; (reflexivity || (exfalso; revert Hb; cbn; lia)).
Qed.

Lemma sample_digest_salt (n : nat) (d : bytes) :
  sample_digest (repeat "."%byte n ++ "$"%byte :: d) = Some d.
Proof. induction n as [|n IH]; [reflexivity|exact IH]. Qed.

Lemma sample_bcrypt_laws : @BcryptLaws sample_bcrypt.
Proof.
  split; cbn; unfold sample_hashpw.
  - intros p s. apply ascii_bytes_text.
    constructor; [cbn; lia|]. apply Forall_app. split.
    + apply Forall_forall. intros b Hb%list_elem_of_In%repeat_spec. subst. cbn. lia.
    + constructor; [cbn; lia|].
      apply Forall_forall. intros b Hb%list_elem_of_In%repeat_spec. subst. cbn. lia.
  - intros p s. unfold sample_checkpw. cbn [Byte.eqb].
    replace (Byte.eqb "$" "$") with true by reflexivity.
    rewrite sample_digest_salt, repeat_length, Nat.eqb_refl, andb_true_r.
    f_equal. apply forallb_forall. intros b Hb%repeat_spec. subst. reflexivity.
  - intros p s E. apply (f_equal (@length byte)) in E.
    cbn in E. rewrite length_app in E. cbn in E. rewrite !repeat_length in E. lia.
Qed.

(** ** Facts about [login] *)

Lemma length_eqb_0 (s : string) : (String.length s =? 0)%nat = false <-> s <> "".
Proof. destruct s; cbn; split; congruence. Qed.

Section LoginFacts.
Context `{Bcrypt} `{PyJWT} `{FileSystem}.

(** What [login] does once the form carries an email and a password. *)
Lemma login_run environ request utcnow w e p :
  login_request request e p -> e <> "" -> p <> "" ->
  login environ request utcnow w =
  match find_one (VStr e) (users_coll w) with
  | None => (Returned (RFailure "invalid username" None), w)
  | Some user =>
      if falsy (fields user !! "password")
      then (Returned (RFailure "invalid password" None), w)
      else match fields user !! "password" with
           | Some (VStr h) =>
               match checkpw (encode_utf8 p) (encode_utf8 h) with
               | None => (Raised ValueError, w)
               | Some false => (Returned (RFailure "invalid password" None), w)
               | Some true =>
                   (Returned (RLogin (jwt_encode (login_payload user utcnow)
                                        (JWT_SECRET environ) JWT_ALGO)
                                     (login_user user)), w)
               end
           | _ => (Raised AttributeError, w)
           end
  end.
Proof.
  intros (Hct & items & Hform & He & Hp) Hne Hnp.
  apply length_eqb_0 in Hne, Hnp.
  destruct w as [coll fs].
  unfold login, request_form, failure, with_coll, mbind, M_bind, mret, M_ret, raise.
  rewrite Hct, Hform. cbn [negb]. rewrite He, Hp. cbn [falsy_field].
  rewrite Hne, Hnp. cbn [orb users_coll uploads].
  destruct (find_one (VStr e) coll) as [user|]; [|reflexivity].
  destruct (falsy (fields user !! "password")); [reflexivity|].
  destruct (fields user !! "password") as [[| | |h]|]; try reflexivity.
  destruct (checkpw (encode_utf8 p) (encode_utf8 h)) as [[|]|]; reflexivity.
Qed.

(** A successful login went through every check. *)
Lemma login_success_inv environ request utcnow w token user' w' :
  login environ request utcnow w = (Returned (RLogin token user'), w') ->
  exists e p user h,
    login_request request e p /\ e <> "" /\ p <> "" /\
    find_one (VStr e) (users_coll w) = Some user /\
    fields user !! "password" = Some (VStr h) /\
    checkpw (encode_utf8 p) (encode_utf8 h) = Some true /\
    user' = login_user user /\
    token = jwt_encode (login_payload user utcnow) (JWT_SECRET environ) JWT_ALGO.
Proof.
  unfold login, request_form, failure, with_coll, mbind, M_bind, mret, M_ret, raise.
  destruct (contains "multipart/form-data" _) eqn:Hct; cbn [negb]; [|discriminate].
  destruct (form request) as [items|] eqn:Hform; [|discriminate].
  destruct (form_get "email" items) as [[e|fn c]|] eqn:He; cbn [falsy_field orb];
    [| |discriminate].
  2:{ destruct (falsy_field (form_get "password" items)); discriminate. }
  destruct (String.length e =? 0)%nat eqn:Hne; cbn [orb]; [discriminate|].
  destruct (form_get "password" items) as [[p|fn c]|] eqn:Hp; cbn [falsy_field];
    [| |discriminate].
  2:{ cbn. destruct (find_one (VStr e) (users_coll w)) as [user|]; [|discriminate].
      destruct (falsy (fields user !! "password")); discriminate. }
  destruct (String.length p =? 0)%nat eqn:Hnp; [discriminate|].
  cbn [users_coll uploads].
  destruct (find_one (VStr e) (users_coll w)) as [user|] eqn:Hu; [|discriminate].
  destruct (falsy (fields user !! "password")); [discriminate|].
  destruct (fields user !! "password") as [[| | |h]|] eqn:Hh; try discriminate.
  destruct (checkpw (encode_utf8 p) (encode_utf8 h)) as [[|]|] eqn:Hc; try discriminate.
  intros [= <- <- <-]. exists e, p, user, h.
  apply length_eqb_0 in Hne, Hnp.
  unfold login_request. repeat split; eauto.
Qed.

End LoginFacts.

(** ** Facts about the merge and the update *)

Lemma In_list_insert {A} (l : list A) (i : nat) (x y : A) :
  In y (<[i := x]> l) -> y = x \/ In y l.
Proof.
  revert i. induction l as [|a l IH]; intros [|i]; cbn; try tauto.
  - intros [<-|Hy]; auto.
  - intros [<-|Hy]; auto. destruct (IH i Hy); auto.
Qed.

Lemma merge_skip_hash data existing_user :
  (merge data existing_user).2 = falsy (data !! "password").
Proof.
  unfold merge.
  destruct (data !! "profilePic"), (fields existing_user !! "profilePic");
    rewrite ?lookup_insert_ne by discriminate;
    destruct (falsy (data !! "password")); reflexivity.
Qed.

Lemma merge_password data existing_user :
  (merge data existing_user).1 !! "password" =
  if falsy (data !! "password")
  then Some (default (VStr "") (fields existing_user !! "password"))
  else data !! "password".
Proof.
  unfold merge.
  destruct (data !! "profilePic"), (fields existing_user !! "profilePic");
    rewrite ?lookup_insert_ne by discriminate;
    destruct (falsy (data !! "password")); cbn [fst];
    rewrite ?lookup_insert_eq, ?lookup_insert_ne by discriminate; reflexivity.
Qed.

Lemma merge_profilePic data existing_user :
  (merge data existing_user).1 !! "profilePic" =
  match data !! "profilePic" with
  | Some pic => Some pic
  | None => fields existing_user !! "profilePic"
  end.
Proof.
  unfold merge.
  destruct (data !! "profilePic") as [pic|] eqn:Ed,
           (fields existing_user !! "profilePic") as [old|] eqn:Ee;
    rewrite ?lookup_insert_ne by discriminate;
    destruct (falsy (data !! "password")); cbn [fst];
    rewrite ?lookup_insert_ne, ?lookup_insert_eq by discriminate;
    rewrite ?lookup_insert_eq; auto.
Qed.

Section UpdateFacts.
Context `{Pydantic} `{Bcrypt} `{FileSystem}.

Lemma update_doc_password valid (new_password : value) :
  (<["password" := new_password]> (model_dump valid)) !! "password" = Some new_password.
Proof. apply lookup_insert_eq. Qed.

Lemma update_doc_profilePic valid (new_password : value) :
  (<["password" := new_password]> (model_dump valid)) !! "profilePic" =
  Some (VStr (profilePic valid)).
Proof.
  unfold model_dump. rewrite !lookup_insert_ne by discriminate.
  apply lookup_insert_eq.
Qed.

(** A successful update rewrote, in place, the record that [find_one]
    returns for the submitted email. *)
Lemma update_profile_success request gensalt w w' :
  update_profile request gensalt w =
    (Returned (RSuccess "Profile updated successfully"), w') ->
  exists items email existing_user valid new_password i,
    let data := update_mapping items ∅ in
    form request = Some items /\
    data !! "email" = Some email /\
    truthy email = true /\
    find_one email (users_coll w) = Some existing_user /\
    SignupModel_validate (merge data existing_user).1 = inr valid /\
    (if falsy (data !! "password")
     then new_password = default (VStr "") (fields existing_user !! "password")
     else exists h, new_password = VStr h /\
            encode_utf8 h = hashpw (encode_utf8 (password valid)) gensalt) /\
    first_match email (users_coll w) = Some i /\
    users_coll w' !! i =
      Some {| _id := _id existing_user;
              fields := <["password" := new_password]> (model_dump valid)
                        ∪ fields existing_user |}.
Proof.
  intros E. apply update_profile_cases in E as [[_ Hr]|E]; [congruence|].
  destruct E as (items & email & existing_user & valid & new_password
                 & Hform & He & Ht & Hu & Hv & Hp & _ & Hw).
  destruct (update_one_Some email (<["password" := new_password]> (model_dump valid))
              _ _ Hu) as (i & Hi & Hl & Eu).
  rewrite Eu in Hw. cbn [fst] in Hw.
  exists items, email, existing_user, valid, new_password, i.
  cbn zeta. rewrite <- merge_skip_hash with (existing_user := existing_user).
  repeat split; try assumption.
  rewrite Hw. apply list_lookup_insert_eq. eapply lookup_lt_Some. exact Hl.
Qed.

End UpdateFacts.

(** * The specification, property by property *)

Section Specification.
Context {Py : Pydantic} {Bc : Bcrypt} {Jw : PyJWT} {Fs : FileSystem}.

(** C1. A signup whose normalized mapping violates a constraint of the
    UserRecord schema is answered with the validation failure; its
    details name every violated field, each once, in the order of the
    schema; and no record is inserted. *)
Theorem signup_reports_every_violated_field request gensalt oid w w1 data :
  signup_read_body request w = (Returned (Some data), w1) ->
  violated_fields data <> [] ->
  exists details,
    signup request gensalt oid w =
      (Returned (RError "Validation failed" (Some details)), w1) /\
    map err_loc details = violated_fields data /\
    NoDup (map err_loc details) /\
    users_coll w1 = users_coll w.
Proof.
  intros Eb Hv. unfold signup, mbind, M_bind, mret, M_ret. rewrite Eb.
  destruct (SignupModel_validate data) as [errors|valid] eqn:Ev.
  - apply SignupModel_validate_inl in Ev as [_ Hm].
    exists errors. repeat split.
    + exact Hm.
    + rewrite Hm. apply violated_fields_NoDup.
    + exact (signup_read_body_coll _ _ _ _ Eb).
  - apply SignupModel_validate_inr in Ev as [Hnil _]. contradiction.
Qed.

(** C2. A valid signup stores, as the password of the new record, the
    text of a hash of the submitted plaintext: it differs from the
    plaintext and the plaintext verifies against it. Signup and update
    keep every stored password a hash, and after a successful update the
    password of the rewritten record is not the submitted one. *)
Theorem stored_password_is_a_hash {Laws : BcryptLaws} :
  (forall request gensalt oid w w1 data valid,
     signup_read_body request w = (Returned (Some data), w1) ->
     SignupModel_validate data = inr valid ->
     exists h doc,
       data !! "password" = Some (VStr (password valid)) /\
       users_coll (signup request gensalt oid w).2 = users_coll w ++ [doc] /\
       fields doc !! "password" = Some (VStr h) /\
       is_hash (VStr h) /\
       h <> password valid /\
       checkpw (encode_utf8 (password valid)) (encode_utf8 h) = Some true) /\
  (forall request gensalt oid w,
     passwords_hashed (users_coll w) ->
     passwords_hashed (users_coll (signup request gensalt oid w).2)) /\
  (forall request gensalt w,
     passwords_hashed (users_coll w) ->
     passwords_hashed (users_coll (update_profile request gensalt w).2)) /\
  (forall request gensalt w w' items plaintext,
     form request = Some items ->
     update_mapping items ∅ !! "password" = Some (VStr plaintext) ->
     update_profile request gensalt w =
       (Returned (RSuccess "Profile updated successfully"), w') ->
     exists email i doc h,
       update_mapping items ∅ !! "email" = Some email /\
       first_match email (users_coll w) = Some i /\
       users_coll w' !! i = Some doc /\
       fields doc !! "password" = Some (VStr h) /\
       h <> plaintext /\
       (plaintext <> "" ->
        checkpw (encode_utf8 plaintext) (encode_utf8 h) = Some true)).
Proof.
  split; [|split; [|split]].
  - intros request gensalt oid w w1 data valid Eb Ev.
    destruct (signup_valid request gensalt oid _ _ _ _ Eb Ev) as (h & Eh & ->).
    apply SignupModel_validate_inr in Ev as (_ & _ & Hpw & _).
    exists h, {| _id := oid; fields := <["password" := VStr h]> (model_dump valid) |}.
    split; [exact Hpw|]. split; [reflexivity|].
    split; [apply lookup_insert_eq|]. split; [|split].
    + exists h, (encode_utf8 (password valid)), gensalt. auto.
    + intros ->. exact (hashpw_one_way _ _ (eq_sym Eh)).
    + rewrite Eh. apply checkpw_hashpw.
  - intros request gensalt oid w Hinv.
    destruct (signup request gensalt oid w) as [r w'] eqn:E. cbn [snd].
    apply signup_coll in E as [->|(valid & h & Eh & ->)]; [exact Hinv|].
    intros doc [Hd|[<-|[]]]%in_app_or; [exact (Hinv doc Hd)|].
    exists (VStr h). split; [apply lookup_insert_eq|].
    exists h, (encode_utf8 (password valid)), gensalt. auto.
  - intros request gensalt w Hinv.
    destruct (update_profile request gensalt w) as [r w'] eqn:E. cbn [snd].
    apply update_profile_cases in E as [[-> _]|E]; [exact Hinv|].
    destruct E as (items & email & existing_user & valid & new_password
                   & _ & _ & _ & Hu & _ & Hp & _ & ->).
    destruct (update_one_Some email (<["password" := new_password]> (model_dump valid))
                _ _ Hu) as (i & _ & _ & ->).
    cbn [fst]. intros doc [->|Hd]%In_list_insert; [|exact (Hinv doc Hd)].
    exists new_password. cbn [fields]. split.
    { apply lookup_union_Some_l. apply lookup_insert_eq. }
    destruct (merge _ existing_user).2.
    + subst new_password.
      destruct (Hinv _ (find_one_In _ _ _ Hu)) as (v & -> & Hv). exact Hv.
    + destruct Hp as (h & -> & Eh).
      exists h, (encode_utf8 (password valid)), gensalt. auto.
  - intros request gensalt w w' items plaintext Hform Hpw E.
    apply update_profile_success in E
      as (items' & email & existing_user & valid & new_password & i
          & Hform' & He & _ & _ & Hv & Hp & Hi & Hl).
    rewrite Hform in Hform'. injection Hform' as <-.
    apply SignupModel_validate_inr in Hv as (_ & _ & Hvp & Hlen & _).
    rewrite merge_password, Hpw in Hvp. rewrite Hpw in Hp.
    exists email, i.
    destruct (falsy (Some (VStr plaintext))) eqn:Ef.
    + injection Hvp as Hvp. subst new_password.
      rewrite Hvp in Hl. eexists. exists (password valid).
      split; [exact He|]. split; [exact Hi|]. split; [exact Hl|].
      split; [apply lookup_union_Some_l, lookup_insert_eq|].
      cbn in Ef. apply negb_true_iff, negb_false_iff, Nat.eqb_eq in Ef.
      split.
      * intros Heq. rewrite Heq, Ef in Hlen. lia.
      * intros Hne. destruct plaintext; [contradiction|discriminate].
    + injection Hvp as Hvp. destruct Hp as (h & -> & Eh). rewrite <- Hvp in Eh.
      eexists. exists h.
      split; [exact He|]. split; [exact Hi|]. split; [exact Hl|].
      split; [apply lookup_union_Some_l, lookup_insert_eq|].
      split.
      * intros ->. exact (hashpw_one_way _ _ (eq_sym Eh)).
      * intros _. rewrite Eh. apply checkpw_hashpw.
Qed.

(** C3, as amended. For a multipart login request that carries a
    non-empty email and a non-empty password: when no record matches the
    email the answer is "invalid username"; when the matched record holds
    no hash, or the verifier rejects the password, the answer is
    "invalid password"; when the verifier accepts, the answer carries
    the token and the record without its password. *)
Theorem login_responses environ request utcnow w e p :
  login_request request e p -> e <> "" -> p <> "" ->
  (find_one (VStr e) (users_coll w) = None ->
   login environ request utcnow w =
     (Returned (RFailure "invalid username" None), w)) /\
  (forall user,
     find_one (VStr e) (users_coll w) = Some user ->
     falsy (fields user !! "password") = true ->
     login environ request utcnow w =
       (Returned (RFailure "invalid password" None), w)) /\
  (forall user h,
     find_one (VStr e) (users_coll w) = Some user ->
     fields user !! "password" = Some (VStr h) -> h <> "" ->
     checkpw (encode_utf8 p) (encode_utf8 h) = Some false ->
     login environ request utcnow w =
       (Returned (RFailure "invalid password" None), w)) /\
  (forall user h,
     find_one (VStr e) (users_coll w) = Some user ->
     fields user !! "password" = Some (VStr h) -> h <> "" ->
     checkpw (encode_utf8 p) (encode_utf8 h) = Some true ->
     exists token,
       login environ request utcnow w =
         (Returned (RLogin token (login_user user)), w) /\
       token = jwt_encode (login_payload user utcnow) (JWT_SECRET environ) JWT_ALGO /\
       login_user user !! "password" = None /\
       forall k, k <> "password" -> k <> "_id" ->
         login_user user !! k = fields user !! k).
Proof.
  intros Hreq He Hp. rewrite (login_run _ _ _ _ _ _ Hreq He Hp).
  repeat split.
  - intros ->. reflexivity.
  - intros user -> ->. reflexivity.
  - intros user h -> -> Hh%length_eqb_0 ->. cbn. rewrite Hh. reflexivity.
  - intros user h -> -> Hh%length_eqb_0 ->. cbn. rewrite Hh. cbn.
    eexists. split; [reflexivity|]. split; [reflexivity|].
    unfold login_user. split.
    + rewrite lookup_insert_ne by discriminate. apply lookup_delete_eq.
    + intros k Hk1 Hk2.
      rewrite lookup_insert_ne by congruence. apply lookup_delete_ne. congruence.
Qed.

(** C4, as amended. When the matched record holds no hash (the field is
    missing, [None] or empty) login answers "invalid password" and
    raises nothing; a stored password that the verifier rejects as
    malformed makes [checkpw] raise, and login does not catch it. *)
Theorem login_stored_hash environ request utcnow w e p user :
  login_request request e p -> e <> "" -> p <> "" ->
  find_one (VStr e) (users_coll w) = Some user ->
  (falsy (fields user !! "password") = true ->
   login environ request utcnow w =
     (Returned (RFailure "invalid password" None), w)) /\
  (forall h,
     fields user !! "password" = Some (VStr h) -> h <> "" ->
     checkpw (encode_utf8 p) (encode_utf8 h) = None ->
     login environ request utcnow w = (Raised ValueError, w)).
Proof.
  intros Hreq He Hp Hu. rewrite (login_run _ _ _ _ _ _ Hreq He Hp), Hu.
  split.
  - intros ->. reflexivity.
  - intros h -> Hh%length_eqb_0 ->. cbn. rewrite Hh. reflexivity.
Qed.

(** C5, as amended. When the form of an update carries no profilePic
    entry (no such field, or only an upload without a file name), the
    profilePic of every stored record is what it was. When the profilePic
    field is an upload with a file name and the update succeeds, the
    profilePic of the rewritten record is the path of that upload. *)
Theorem update_profilePic_policy request gensalt w r w' items :
  form request = Some items ->
  update_profile request gensalt w = (r, w') ->
  ((forall v, In ("profilePic", v) items -> exists content, v = Upload "" content) ->
   map (fun d => fields d !! "profilePic") (users_coll w') =
   map (fun d => fields d !! "profilePic") (users_coll w)) /\
  (forall filename content,
     NoDup (map fst items) ->
     In ("profilePic", Upload filename content) items ->
     filename <> "" ->
     r = Returned (RSuccess "Profile updated successfully") ->
     exists email i doc,
       update_mapping items ∅ !! "email" = Some email /\
       first_match email (users_coll w) = Some i /\
       users_coll w' !! i = Some doc /\
       fields doc !! "profilePic" = Some (VStr (path_join UPLOAD_DIR filename))).
Proof.
  intros Hform E. split.
  - intros Hnone.
    apply update_profile_cases in E as [[-> _]|E]; [reflexivity|].
    destruct E as (items' & email & existing_user & valid & new_password
                   & Hform' & _ & _ & Hu & Hv & _ & _ & ->).
    rewrite Hform in Hform'. injection Hform' as <-.
    apply update_one_keeps with (doc := existing_user); [exact Hu|].
    rewrite update_doc_profilePic.
    apply SignupModel_validate_inr in Hv as (_ & _ & _ & _ & Hpic).
    rewrite merge_profilePic in Hpic.
    rewrite (update_mapping_lookup_inv (fun o => o = None) "profilePic") in Hpic.
    + symmetry. exact Hpic.
    + apply lookup_empty.
    + intros v x Hin Hentry. destruct (Hnone v Hin) as [content ->]. discriminate.
  - intros filename content Hnd Hin Hname ->.
    apply update_profile_success in E
      as (items' & email & existing_user & valid & new_password & i
          & Hform' & He & _ & _ & Hv & _ & Hi & Hl).
    rewrite Hform in Hform'. injection Hform' as <-.
    exists email, i. eexists.
    split; [exact He|]. split; [exact Hi|]. split; [exact Hl|].
    cbn [fields]. apply lookup_union_Some_l. rewrite update_doc_profilePic.
    apply SignupModel_validate_inr in Hv as (_ & _ & _ & _ & Hpic).
    rewrite merge_profilePic in Hpic.
    rewrite (update_mapping_lookup_NoDup "profilePic" (Upload filename content)
               (VStr (path_join UPLOAD_DIR filename))) in Hpic; try assumption.
    + symmetry. exact Hpic.
    + cbn. apply length_eqb_0 in Hname. rewrite Hname. reflexivity.
Qed.

(** C6, as amended. When the form of an update carries no password, or
    an empty one, the merge copies the stored password into the
    submission and sets the flag that skips hashing, and the password of
    every stored record is what it was, so whatever verified against it
    still does. When the password is not empty and the update succeeds,
    the password of the rewritten record is the text of a fresh hash of
    the submitted one. *)
Theorem update_password_policy request gensalt w r w' items :
  form request = Some items ->
  update_profile request gensalt w = (r, w') ->
  ((forall v, In ("password", v) items -> v = Text "") ->
   (forall existing_user,
      (merge (update_mapping items ∅) existing_user).2 = true /\
      (merge (update_mapping items ∅) existing_user).1 !! "password" =
      Some (default (VStr "") (fields existing_user !! "password"))) /\
   map (fun d => fields d !! "password") (users_coll w') =
   map (fun d => fields d !! "password") (users_coll w) /\
   (forall i doc h p,
      users_coll w !! i = Some doc ->
      fields doc !! "password" = Some (VStr h) ->
      checkpw p (encode_utf8 h) = Some true ->
      exists doc', users_coll w' !! i = Some doc' /\
        fields doc' !! "password" = Some (VStr h))) /\
  (forall plaintext,
     NoDup (map fst items) ->
     In ("password", Text plaintext) items ->
     plaintext <> "" ->
     r = Returned (RSuccess "Profile updated successfully") ->
     exists email i doc h,
       update_mapping items ∅ !! "email" = Some email /\
       first_match email (users_coll w) = Some i /\
       users_coll w' !! i = Some doc /\
       fields doc !! "password" = Some (VStr h) /\
       encode_utf8 h = hashpw (encode_utf8 plaintext) gensalt).
Proof.
  intros Hform E. split.
  - intros Hempty.
    assert (falsy (update_mapping items ∅ !! "password") = true) as Hfalsy.
    { apply (update_mapping_lookup_inv (fun o => falsy o = true)); [reflexivity|].
      intros v x Hin Hentry. rewrite (Hempty v Hin) in Hentry.
      injection Hentry as <-. reflexivity. }
    assert (map (fun d => fields d !! "password") (users_coll w') =
            map (fun d => fields d !! "password") (users_coll w)) as Hmap.
    { apply update_profile_cases in E as [[-> _]|E]; [reflexivity|].
      destruct E as (items' & email & existing_user & valid & new_password
                     & Hform' & _ & _ & Hu & Hv & Hp & _ & ->).
      rewrite Hform in Hform'. injection Hform' as <-.
      apply update_one_keeps with (doc := existing_user); [exact Hu|].
      rewrite update_doc_password.
      rewrite merge_skip_hash, Hfalsy in Hp. subst new_password.
      apply SignupModel_validate_inr in Hv as (_ & _ & Hvp & Hlen & _).
      rewrite merge_password, Hfalsy in Hvp.
      destruct (fields existing_user !! "password") as [v|]; [reflexivity|].
      cbn in Hvp. injection Hvp as Hvp. rewrite <- Hvp in Hlen. cbn in Hlen. lia. }
    split; [|split; [exact Hmap|]].
    + intros existing_user.
      rewrite merge_skip_hash, merge_password, Hfalsy. auto.
    + intros i doc h p Hdoc Hh _.
      apply (f_equal (fun l => l !! i)) in Hmap.
      rewrite !list_lookup_fmap, Hdoc in Hmap. cbn in Hmap.
      destruct (users_coll w' !! i) as [doc'|]; [|discriminate].
      exists doc'. split; [reflexivity|]. cbn in Hmap. congruence.
  - intros plaintext Hnd Hin Hne ->.
    apply update_profile_success in E
      as (items' & email & existing_user & valid & new_password & i
          & Hform' & He & _ & _ & Hv & Hp & Hi & Hl).
    rewrite Hform in Hform'. injection Hform' as <-.
    assert (update_mapping items ∅ !! "password" = Some (VStr plaintext)) as Hpw.
    { apply (update_mapping_lookup_NoDup "password" (Text plaintext)); auto. }
    assert (falsy (Some (VStr plaintext)) = false) as Hfalsy.
    { cbn. apply length_eqb_0 in Hne. rewrite Hne. reflexivity. }
    apply SignupModel_validate_inr in Hv as (_ & _ & Hvp & _ & _).
    rewrite merge_password, Hpw, Hfalsy in Hvp. injection Hvp as Hvp.
    rewrite Hpw, Hfalsy in Hp. destruct Hp as (h & -> & Eh).
    exists email, i. eexists. exists h.
    split; [exact He|]. split; [exact Hi|]. split; [exact Hl|].
    split; [apply lookup_union_Some_l, lookup_insert_eq|].
    rewrite Hvp. exact Eh.
Qed.

(** C7. The token of a successful login is signed with [JWT_SECRET],
    which is the value of the environment or else the default, under
    HS256, and its payload holds exactly the identity of the record, its
    email and the time of issue plus ten days. *)
Theorem login_token environ request utcnow w token user' w' :
  login environ request utcnow w = (Returned (RLogin token user'), w') ->
  exists payload e,
    token = jwt_encode payload (JWT_SECRET environ) "HS256" /\
    JWT_SECRET environ =
      match environ !! "JWT_SECRET" with
      | Some secret => secret
      | None => "change_this_secret_in_prod"
      end /\
    form_get "email" <$> form request = Some (Some (Text e)) /\
    payload =
      [ ("user_id", CValue (user' !! "_id"));
        ("email", CValue (Some (VStr e)));
        ("exp", CDatetime (utcnow + 10 * 86400 * 1000000)) ] /\
    is_Some (user' !! "_id").
Proof.
  intros E. apply login_success_inv in E
    as (e & p & user & h & Hreq & _ & _ & Hu & _ & _ & -> & ->).
  destruct Hreq as (_ & items & Hform & He & _).
  exists (login_payload user utcnow), e.
  split; [reflexivity|]. split; [|split; [|split]].
  - unfold JWT_SECRET. destruct (environ !! "JWT_SECRET"); reflexivity.
  - rewrite Hform. cbn. rewrite He. reflexivity.
  - unfold login_payload, login_user.
    rewrite lookup_insert_eq.
    rewrite lookup_insert_ne by discriminate.
    rewrite lookup_delete_ne by discriminate.
    rewrite (find_one_matches _ _ _ Hu). reflexivity.
  - unfold login_user. rewrite lookup_insert_eq. eauto.
Qed.

(** C8, as amended. For a delete request with a non-empty email: when
    no record matches, the answer is "user not found" and the world is
    as it was; when a record matches, the first such record, and only
    it, is removed; and when it was the only record with that email, a
    later lookup finds none and a login for that email is answered with
    "invalid username". *)
Theorem delete_profile_responses email w :
  email <> "" ->
  (find_one (VStr email) (users_coll w) = None ->
   delete_profile email w = (Returned (RFailure "user not found" None), w)) /\
  (forall doc,
     find_one (VStr email) (users_coll w) = Some doc ->
     exists pre post w',
       delete_profile email w =
         (Returned (RSuccess "Profile deleted successfully"), w') /\
       users_coll w = pre ++ doc :: post /\
       find_one (VStr email) pre = None /\
       users_coll w' = pre ++ post /\
       uploads w' = uploads w /\
       (length (List.filter (matches (VStr email)) (users_coll w)) = 1%nat ->
        find_one (VStr email) (users_coll w') = None /\
        forall environ request utcnow p,
          login_request request email p -> p <> "" ->
          login environ request utcnow w' =
            (Returned (RFailure "invalid username" None), w'))).
Proof.
  intros He. pose proof He as Hlen. apply length_eqb_0 in Hlen.
  destruct w as [coll fs].
  unfold delete_profile, failure, with_coll, mbind, M_bind, mret, M_ret.
  rewrite Hlen. cbn [users_coll uploads]. split.
  - intros ->. reflexivity.
  - intros doc Hu. rewrite Hu.
    destruct (delete_one_Some _ _ _ Hu) as (pre & post & Hc & Hpre & Hd).
    cbn [users_coll uploads]. rewrite Hd. cbn. subst coll.
    exists pre, post, {| users_coll := pre ++ post; uploads := fs |}.
    repeat split; try assumption.
    + apply (filter_matches_single _ _ doc); try assumption.
      unfold matches. apply bool_decide_eq_true.
      exact (find_one_matches _ _ _ Hu).
    + intros environ request utcnow p Hreq Hp.
      rewrite (login_run _ _ _ _ _ _ Hreq He Hp). cbn [users_coll].
      rewrite (filter_matches_single _ pre doc post); try assumption; [reflexivity|].
      unfold matches. apply bool_decide_eq_true.
      exact (find_one_matches _ _ _ Hu).
Qed.

(** C9. A signup whose content type names neither JSON nor a form
    encoding is answered with "Unsupported content type" and leaves the
    world as it was; login and update answer any content type that is
    not multipart with the failure "invalid content-type", whatever the
    body is, and leave the world as it was. *)
Theorem unsupported_content_type request w :
  let content_type := default "" (content_type request) in
  (contains "application/json" content_type = false ->
   contains "multipart/form-data" content_type = false ->
   contains "application/x-www-form-urlencoded" content_type = false ->
   forall gensalt oid,
     signup request gensalt oid w =
       (Returned (RError "Unsupported content type" None), w)) /\
  (contains "multipart/form-data" content_type = false ->
   (forall environ utcnow,
      login environ request utcnow w =
        (Returned (RFailure "invalid content-type" None), w)) /\
   (forall gensalt,
      update_profile request gensalt w =
        (Returned (RFailure "invalid content-type" None), w))).
Proof.
  cbn zeta. split.
  - intros Hj Hm Hu gensalt oid.
    unfold signup, signup_read_body, mbind, M_bind, mret, M_ret.
    rewrite Hj, Hm, Hu. reflexivity.
  - intros Hm. split.
    + intros environ utcnow. unfold login. rewrite Hm. reflexivity.
    + intros gensalt. unfold update_profile. rewrite Hm. reflexivity.
Qed.

(** C10. A valid signup is inserted whatever the collection holds: no
    lookup by email comes before the insert. Two valid signups with the
    same email both succeed and leave two records with that email. *)
Theorem signup_no_duplicate_check {Laws : BcryptLaws}
    request1 request2 gensalt1 gensalt2 oid1 oid2 w wa wb data1 data2 valid1 valid2 :
  signup_read_body request1 w = (Returned (Some data1), wa) ->
  SignupModel_validate data1 = inr valid1 ->
  let w1 := (signup request1 gensalt1 oid1 w).2 in
  signup_read_body request2 w1 = (Returned (Some data2), wb) ->
  SignupModel_validate data2 = inr valid2 ->
  email valid1 = email valid2 ->
  let w2 := (signup request2 gensalt2 oid2 w1).2 in
  exists doc1 doc2,
    (signup request1 gensalt1 oid1 w).1 = Returned (RSignup "Signup successful" oid1) /\
    users_coll w1 = users_coll w ++ [doc1] /\
    (signup request2 gensalt2 oid2 w1).1 = Returned (RSignup "Signup successful" oid2) /\
    users_coll w2 = users_coll w ++ [doc1; doc2] /\
    _id doc1 = oid1 /\ _id doc2 = oid2 /\
    matches (VStr (email valid1)) doc1 = true /\
    matches (VStr (email valid1)) doc2 = true.
Proof.
  intros Eb1 Ev1 w1 Eb2 Ev2 Hemail w2. subst w1 w2.
  destruct (signup_valid request1 gensalt1 oid1 _ _ _ _ Eb1 Ev1) as (h1 & _ & E1).
  rewrite E1 in Eb2 |- *. cbn [fst snd] in Eb2 |- *.
  destruct (signup_valid request2 gensalt2 oid2 _ _ _ _ Eb2 Ev2) as (h2 & _ & E2).
  exists {| _id := oid1; fields := <["password" := VStr h1]> (model_dump valid1) |},
         {| _id := oid2; fields := <["password" := VStr h2]> (model_dump valid2) |}.
  rewrite E2. cbn [fst snd users_coll]. unfold insert_one.
  repeat split.
  - rewrite <- app_assoc. reflexivity.
  - unfold matches. cbn. apply bool_decide_eq_true. reflexivity.
  - unfold matches. cbn. apply bool_decide_eq_true. rewrite Hemail. reflexivity.
Qed.

End Specification.

(** * The properties on concrete requests *)

Lemma signup_reports_every_violated_field_witness :
  let data := <["age" := VInt 0]> (<["password" := VStr "12345"]> ada) in
  signup_read_body (json_request data) (sample_world []) =
    (Returned (Some data), sample_world []) /\
  violated_fields data <> [] /\
  exists details,
    signup (json_request data) 3%nat "65a1" (sample_world []) =
      (Returned (RError "Validation failed" (Some details)), sample_world []) /\
    map err_loc details = ["age"; "password"] /\
    users_coll (sample_world []) = users_coll (sample_world []).
Proof.
  cbn zeta.
  assert (violated_fields (<["age" := VInt 0]> (<["password" := VStr "12345"]> ada))
          = ["age"; "password"]) as Hv by (vm_compute; reflexivity).
  split; [reflexivity|]. split; [rewrite Hv; discriminate|].
  destruct (signup_reports_every_violated_field (Bc := sample_bcrypt)
              (json_request (<["age" := VInt 0]> (<["password" := VStr "12345"]> ada)))
              3%nat "65a1" (sample_world []) (sample_world []) _ eq_refl)
    as (details & E & Hm & _ & Hc).
  - rewrite Hv. discriminate.
  - exists details. rewrite Hv in Hm. auto.
Defined.

Lemma unsupported_content_type_witness :
  contains "application/json" "text/plain" = false /\
  contains "multipart/form-data" "text/plain" = false /\
  contains "application/x-www-form-urlencoded" "text/plain" = false /\
  signup text_request 3%nat "65a1" ada_world =
    (Returned (RError "Unsupported content type" None), ada_world) /\
  login ∅ text_request 0 ada_world =
    (Returned (RFailure "invalid content-type" None), ada_world) /\
  update_profile text_request 3%nat ada_world =
    (Returned (RFailure "invalid content-type" None), ada_world).
Proof.
  destruct (unsupported_content_type text_request ada_world) as [Hs Hlu].
  destruct (Hlu eq_refl) as [Hl Hu].
  split; [reflexivity|]. split; [reflexivity|]. split; [reflexivity|].
  split; [|split].
  - exact (Hs eq_refl eq_refl eq_refl 3%nat "65a1").
  - exact (Hl ∅ 0).
  - exact (Hu 3%nat).
Defined.

Lemma signup_no_duplicate_check_witness :
  signup_read_body (json_request ada) (sample_world []) =
    (Returned (Some ada), sample_world []) /\
  signup_read_body (json_request ada) ada_world = (Returned (Some ada), ada_world) /\
  is_Some (find_one (VStr "ada@example.com") (users_coll ada_world)) /\
  exists valid doc1 doc2,
    SignupModel_validate ada = inr valid /\
    (signup (json_request ada) 3%nat "65a2" ada_world).1 =
      Returned (RSignup "Signup successful" "65a2") /\
    users_coll ada_twice = [doc1; doc2] /\
    matches (VStr "ada@example.com") doc1 = true /\
    matches (VStr "ada@example.com") doc2 = true.
Proof.
  split; [reflexivity|]. split; [reflexivity|].
  split; [vm_compute; eauto|].
  destruct (SignupModel_validate ada) as [errors|valid] eqn:Ev;
    [vm_compute in Ev; discriminate|].
  destruct (signup_no_duplicate_check (Laws := sample_bcrypt_laws)
              (json_request ada) (json_request ada)
              3%nat 3%nat "65a1" "65a2" (sample_world []) (sample_world []) ada_world
              ada ada valid valid eq_refl Ev eq_refl Ev eq_refl)
    as (doc1 & doc2 & _ & _ & E2 & Hc & _ & _ & M1 & M2).
  assert (email valid = "ada@example.com") as He
    by (vm_compute in Ev; injection Ev as <-; reflexivity).
  rewrite He in M1, M2.
  exists valid, doc1, doc2. auto.
Defined.

Lemma login_form_request (e p : string) :
  login_request (form_request (login_form e p)) e p.
Proof.
  split; [reflexivity|]. exists (login_form e p).
  cbn. auto.
Qed.

Lemma ada_world_find :
  find_one (VStr "ada@example.com") (users_coll ada_world) = Some (ada_doc "65a1").
Proof. vm_compute. reflexivity. Qed.

Lemma login_responses_witness :
  find_one (VStr "ghost@example.com") (users_coll ada_world) = None /\
  login ∅ (form_request (login_form "ghost@example.com" "secret1")) 0 ada_world =
    (Returned (RFailure "invalid username" None), ada_world) /\
  falsy (fields (legacy_doc None) !! "password") = true /\
  login ∅ (form_request (login_form "old@example.com" "secret1")) 0
      (sample_world [legacy_doc None]) =
    (Returned (RFailure "invalid password" None), sample_world [legacy_doc None]) /\
  checkpw (encode_utf8 "wrong") (encode_utf8 ada_hash) = Some false /\
  login ∅ (form_request (login_form "ada@example.com" "wrong")) 0 ada_world =
    (Returned (RFailure "invalid password" None), ada_world) /\
  checkpw (encode_utf8 "secret1") (encode_utf8 ada_hash) = Some true /\
  exists token,
    login ∅ (form_request (login_form "ada@example.com" "secret1")) 0 ada_world =
      (Returned (RLogin token (login_user (ada_doc "65a1"))), ada_world) /\
    login_user (ada_doc "65a1") !! "password" = None.
Proof.
  destruct (login_responses ∅ _ 0 ada_world _ _
              (login_form_request "ghost@example.com" "secret1")
              ltac:(discriminate) ltac:(discriminate)) as (Hnone & _).
  destruct (login_responses ∅ _ 0 (sample_world [legacy_doc None]) _ _
              (login_form_request "old@example.com" "secret1")
              ltac:(discriminate) ltac:(discriminate)) as (_ & Habsent & _).
  destruct (login_responses ∅ _ 0 ada_world _ _
              (login_form_request "ada@example.com" "wrong")
              ltac:(discriminate) ltac:(discriminate)) as (_ & _ & Hbad & _).
  destruct (login_responses ∅ _ 0 ada_world _ _
              (login_form_request "ada@example.com" "secret1")
              ltac:(discriminate) ltac:(discriminate)) as (_ & _ & _ & Hgood).
  split; [reflexivity|]. split; [exact (Hnone eq_refl)|].
  split; [reflexivity|]. split; [exact (Habsent (legacy_doc None) eq_refl eq_refl)|].
  split; [reflexivity|].
  split; [exact (Hbad _ ada_hash ada_world_find eq_refl ltac:(discriminate) eq_refl)|].
  split; [reflexivity|].
  destruct (Hgood _ ada_hash ada_world_find eq_refl ltac:(discriminate) eq_refl)
    as (token & E & _ & Hpw & _).
  exists token. auto.
Defined.

Lemma login_stored_hash_witness :
  falsy (fields (legacy_doc None) !! "password") = true /\
  login ∅ (form_request (login_form "old@example.com" "secret1")) 0
      (sample_world [legacy_doc None]) =
    (Returned (RFailure "invalid password" None), sample_world [legacy_doc None]) /\
  falsy (fields (legacy_doc (Some (VStr ""))) !! "password") = true /\
  login ∅ (form_request (login_form "old@example.com" "secret1")) 0
      (sample_world [legacy_doc (Some (VStr ""))]) =
    (Returned (RFailure "invalid password" None),
     sample_world [legacy_doc (Some (VStr ""))]) /\
  checkpw (encode_utf8 "secret1") (encode_utf8 "secret1") = None /\
  login ∅ (form_request (login_form "old@example.com" "secret1")) 0
      (sample_world [legacy_doc (Some (VStr "secret1"))]) =
    (Raised ValueError, sample_world [legacy_doc (Some (VStr "secret1"))]).
Proof.
  pose proof (fun stored Hu =>
    login_stored_hash ∅ _ 0 (sample_world [legacy_doc stored]) _ _ (legacy_doc stored)
      (login_form_request "old@example.com" "secret1")
      ltac:(discriminate) ltac:(discriminate) Hu) as Hlogin.
  split; [reflexivity|].
  split; [exact (proj1 (Hlogin None eq_refl) eq_refl)|].
  split; [reflexivity|].
  split; [exact (proj1 (Hlogin (Some (VStr "")) eq_refl) eq_refl)|].
  split; [reflexivity|].
  exact (proj2 (Hlogin (Some (VStr "secret1")) eq_refl) "secret1" eq_refl
           ltac:(discriminate) eq_refl).
Defined.

Lemma login_token_witness :
  let request := form_request (login_form "ada@example.com" "secret1") in
  login ∅ request 1700000000000000 ada_world =
    (Returned (RLogin "HS256.user_id,email,exp.change_this_secret_in_prod"
                 (login_user (ada_doc "65a1"))), ada_world) /\
  exists payload,
    "HS256.user_id,email,exp.change_this_secret_in_prod" =
      jwt_encode payload "change_this_secret_in_prod" "HS256" /\
    payload =
      [ ("user_id", CValue (Some (VStr "65a1")));
        ("email", CValue (Some (VStr "ada@example.com")));
        ("exp", CDatetime 1700864000000000) ].
Proof.
  cbn zeta.
  assert (login ∅ (form_request (login_form "ada@example.com" "secret1"))
            1700000000000000 ada_world =
          (Returned (RLogin "HS256.user_id,email,exp.change_this_secret_in_prod"
                       (login_user (ada_doc "65a1"))), ada_world)) as E
    by (vm_compute; reflexivity).
  split; [exact E|].
  destruct (login_token _ _ _ _ _ _ _ E) as (payload & e & Ht & Hs & He & Hp & _).
  exists payload. injection He as <-. split; [exact Ht|exact Hp].
Defined.

Lemma delete_profile_responses_witness :
  find_one (VStr "ghost@example.com") (users_coll ada_world) = None /\
  delete_profile "ghost@example.com" ada_world =
    (Returned (RFailure "user not found" None), ada_world) /\
  find_one (VStr "ada@example.com") (users_coll ada_world) = Some (ada_doc "65a1") /\
  length (List.filter (matches (VStr "ada@example.com")) (users_coll ada_world)) = 1%nat /\
  exists w',
    delete_profile "ada@example.com" ada_world =
      (Returned (RSuccess "Profile deleted successfully"), w') /\
    users_coll w' = [] /\
    login ∅ (form_request (login_form "ada@example.com" "secret1")) 0 w' =
      (Returned (RFailure "invalid username" None), w').
Proof.
  destruct (delete_profile_responses "ghost@example.com" ada_world ltac:(discriminate))
    as [Hnone _].
  destruct (delete_profile_responses "ada@example.com" ada_world ltac:(discriminate))
    as [_ Hsome].
  split; [reflexivity|]. split; [exact (Hnone eq_refl)|].
  split; [exact ada_world_find|]. split; [reflexivity|].
  destruct (Hsome _ ada_world_find) as (pre & post & w' & E & Hc & _ & Hc' & _ & Hone).
  exists w'. split; [exact E|].
  destruct (Hone eq_refl) as [_ Hlogin].
  split.
  - rewrite Hc'. apply (f_equal (@length document)) in Hc.
    rewrite length_app in Hc. change (users_coll ada_world) with [ada_doc "65a1"] in Hc.
    destruct pre, post; cbn in Hc; (reflexivity || lia).
  - exact (Hlogin ∅ _ 0 "secret1" (login_form_request _ _) ltac:(discriminate)).
Defined.

Lemma stored_password_is_a_hash_witness :
  signup_read_body (json_request ada) (sample_world []) =
    (Returned (Some ada), sample_world []) /\
  ada !! "password" = Some (VStr "secret1") /\
  (exists h doc,
     users_coll ada_world = [doc] /\
     fields doc !! "password" = Some (VStr h) /\
     h <> "secret1" /\
     checkpw (encode_utf8 "secret1") (encode_utf8 h) = Some true) /\
  passwords_hashed (users_coll ada_world) /\
  passwords_hashed
    (users_coll (update_profile (form_request (("password", Text "secret2") :: profile_form))
                   5%nat ada_world).2).
Proof.
  destruct (stored_password_is_a_hash (Laws := sample_bcrypt_laws))
    as (Hsignup & Hinv_signup & Hinv_update & _).
  split; [reflexivity|]. split; [reflexivity|].
  destruct (SignupModel_validate ada) as [errors|valid] eqn:Ev;
    [vm_compute in Ev; discriminate|].
  assert (password valid = "secret1") as Hpw
    by (vm_compute in Ev; injection Ev as <-; reflexivity).
  destruct (Hsignup (json_request ada) 3%nat "65a1" (sample_world []) (sample_world [])
              ada valid eq_refl Ev) as (h & doc & _ & Hc & Hf & _ & Hne & Hck).
  rewrite Hpw in Hne, Hck.
  assert (passwords_hashed (users_coll ada_world)) as Hada.
  { apply (Hinv_signup (json_request ada) 3%nat "65a1" (sample_world [])).
    intros d []. }
  split; [exists h, doc; auto|].
  split; [exact Hada|].
  apply Hinv_update. exact Hada.
Defined.

Lemma update_profilePic_policy_witness :
  let kept := ("profilePic", Upload "" []) :: profile_form in
  let sent := ("profilePic", Upload "new.png" []) :: profile_form in
  (forall v, In ("profilePic", v) kept -> exists content, v = Upload "" content) /\
  map (fun d => fields d !! "profilePic")
    (users_coll (update_profile (form_request kept) 5%nat ada_world).2) =
  map (fun d => fields d !! "profilePic") (users_coll ada_world) /\
  NoDup (map fst sent) /\
  (update_profile (form_request sent) 5%nat ada_world).1 =
    Returned (RSuccess "Profile updated successfully") /\
  exists doc,
    users_coll (update_profile (form_request sent) 5%nat ada_world).2 !! 0%nat = Some doc /\
    fields doc !! "profilePic" = Some (VStr "uploads/new.png").
Proof.
  cbn zeta.
  assert (forall v, In ("profilePic", v) (("profilePic", Upload "" []) :: profile_form) ->
                    exists content, v = Upload "" content) as Hkept.
  { intros v [[= <-]|Hin]; [eauto|].
    cbn in Hin. repeat (destruct Hin as [[=]|Hin]). destruct Hin. }
  assert (NoDup (map fst (("profilePic", Upload "new.png" []) :: profile_form))) as Hnd.
  { cbn. apply NoDup_ListNoDup.
    repeat (constructor;
            [cbn; intros Hin; repeat destruct Hin as [Hin|Hin]; discriminate || auto|]).
    constructor. }
  split; [exact Hkept|].
  split.
  - refine (proj1 (update_profilePic_policy (Bc := sample_bcrypt)
                     (form_request (("profilePic", Upload "" []) :: profile_form))
                     5%nat ada_world _ _ _ eq_refl (surjective_pairing _)) Hkept).
  - split; [exact Hnd|]. split; [vm_compute; reflexivity|].
    destruct (proj2 (update_profilePic_policy (Bc := sample_bcrypt)
                       (form_request (("profilePic", Upload "new.png" []) :: profile_form))
                       5%nat ada_world _ _ _ eq_refl (surjective_pairing _))
                "new.png" [] Hnd (or_introl eq_refl) ltac:(discriminate)
                ltac:(vm_compute; reflexivity))
      as (email & i & doc & He & Hi & Hl & Hp).
    exists doc. split; [|exact Hp].
    assert (i = 0%nat) as ->; [|exact Hl].
    vm_compute in He. injection He as <-. vm_compute in Hi. congruence.
Defined.

Lemma update_password_policy_witness :
  let kept := ("password", Text "") :: profile_form in
  let sent := ("password", Text "secret2") :: profile_form in
  (forall v, In ("password", v) kept -> v = Text "") /\
  map (fun d => fields d !! "password")
    (users_coll (update_profile (form_request kept) 5%nat ada_world).2) =
  map (fun d => fields d !! "password") (users_coll ada_world) /\
  NoDup (map fst sent) /\
  (update_profile (form_request sent) 5%nat ada_world).1 =
    Returned (RSuccess "Profile updated successfully") /\
  exists doc h,
    users_coll (update_profile (form_request sent) 5%nat ada_world).2 !! 0%nat = Some doc /\
    fields doc !! "password" = Some (VStr h) /\
    encode_utf8 h = hashpw (encode_utf8 "secret2") 5%nat.
Proof.
  cbn zeta.
  assert (forall v, In ("password", v) (("password", Text "") :: profile_form) ->
                    v = Text "") as Hkept.
  { intros v [[= <-]|Hin]; [reflexivity|].
    cbn in Hin. repeat (destruct Hin as [[=]|Hin]). destruct Hin. }
  assert (NoDup (map fst (("password", Text "secret2") :: profile_form))) as Hnd.
  { cbn. apply NoDup_ListNoDup.
    repeat (constructor;
            [cbn; intros Hin; repeat destruct Hin as [Hin|Hin]; discriminate || auto|]).
    constructor. }
  split; [exact Hkept|].
  split.
  - refine (proj1 (proj2 (proj1 (update_password_policy (Bc := sample_bcrypt)
                                   (form_request (("password", Text "") :: profile_form))
                                   5%nat ada_world _ _ _ eq_refl
                                   (surjective_pairing _)) Hkept))).
  - split; [exact Hnd|]. split; [vm_compute; reflexivity|].
    destruct (proj2 (update_password_policy (Bc := sample_bcrypt)
                       (form_request (("password", Text "secret2") :: profile_form))
                       5%nat ada_world _ _ _ eq_refl (surjective_pairing _))
                "secret2" Hnd (or_introl eq_refl) ltac:(discriminate)
                ltac:(vm_compute; reflexivity))
      as (email & i & doc & h & He & Hi & Hl & Hp & Eh).
    exists doc, h. split; [|split; [exact Hp|exact Eh]].
    assert (i = 0%nat) as ->; [|exact Hl].
    vm_compute in He. injection He as <-. vm_compute in Hi. congruence.
Defined.

(** * Where the code departs from the specification as it is worded *)

(** C3 as stated: a multipart login for an email that no record matches is
    answered with "No email or password provided", not with "invalid
    username", when its password is empty. *)
Lemma login_empty_password_guard :
  let request := form_request (login_form "ghost@example.com" "") in
  contains "multipart/form-data" (default "" (content_type request)) = true /\
  find_one (VStr "ghost@example.com") (users_coll ada_world) = None /\
  login ∅ request 0 ada_world =
    (Returned (RFailure "No email or password provided" None), ada_world) /\
  login ∅ request 0 ada_world <>
    (Returned (RFailure "invalid username" None), ada_world).
Proof.
  cbn zeta. split; [reflexivity|]. split; [reflexivity|].
  assert (login ∅ (form_request (login_form "ghost@example.com" "")) 0 ada_world =
          (Returned (RFailure "No email or password provided" None), ada_world)) as E
    by (vm_compute; reflexivity).
  split; [exact E|]. rewrite E. intros [=].
Qed.

(** C4 as stated: a stored password that is not a hash makes the login
    raise instead of answering "invalid password". *)
Lemma login_malformed_hash_raises :
  let w := sample_world [legacy_doc (Some (VStr "secret1"))] in
  let request := form_request (login_form "old@example.com" "secret1") in
  find_one (VStr "old@example.com") (users_coll w) =
    Some (legacy_doc (Some (VStr "secret1"))) /\
  fields (legacy_doc (Some (VStr "secret1"))) !! "password" = Some (VStr "secret1") /\
  ~ is_hash (VStr "secret1") /\
  login ∅ request 0 w = (Raised ValueError, w) /\
  login ∅ request 0 w <> (Returned (RFailure "invalid password" None), w).
Proof.
  cbn zeta. split; [reflexivity|]. split; [reflexivity|]. split.
  - intros (h & p & s & [= <-] & E). discriminate E.
  - assert (login ∅ (form_request (login_form "old@example.com" "secret1")) 0
              (sample_world [legacy_doc (Some (VStr "secret1"))]) =
            (Raised ValueError, sample_world [legacy_doc (Some (VStr "secret1"))])) as E
      by (vm_compute; reflexivity).
    split; [exact E|]. rewrite E. intros [=].
Qed.

(** C5 as stated: an update that carries no file, but a text field named
    profilePic, replaces the stored reference. *)
Lemma update_text_profilePic_replaces :
  let items := ("profilePic", Text "elsewhere.png") :: profile_form in
  let out := update_profile (form_request items) 5%nat ada_world in
  (forall key filename content, ~ In (key, Upload filename content) items) /\
  is_Some (find_one (VStr "ada@example.com") (users_coll ada_world)) /\
  out.1 = Returned (RSuccess "Profile updated successfully") /\
  map (fun d => fields d !! "profilePic") (users_coll ada_world) =
    [Some (VStr "uploads/ada.png")] /\
  map (fun d => fields d !! "profilePic") (users_coll out.2) =
    [Some (VStr "elsewhere.png")].
Proof.
  cbn zeta. split.
  - intros key filename content Hin. cbn in Hin.
    repeat (destruct Hin as [[=]|Hin]). destruct Hin.
  - split; [vm_compute; eauto|]. repeat split; vm_compute; reflexivity.
Qed.

(** C6 as stated: an update whose new password is not empty but too short
    fails validation, and the stored hash stays. *)
Lemma update_short_password_keeps_hash :
  let items := ("password", Text "abc") :: profile_form in
  let out := update_profile (form_request items) 5%nat ada_world in
  is_Some (find_one (VStr "ada@example.com") (users_coll ada_world)) /\
  (exists details,
     out.1 = Returned (RFailure "Validation failed" (Some details)) /\
     map err_loc details = ["password"]) /\
  map (fun d => fields d !! "password") (users_coll out.2) = [Some (VStr ada_hash)] /\
  encode_utf8 ada_hash <> hashpw (encode_utf8 "abc") 5%nat /\
  checkpw (encode_utf8 "abc") (encode_utf8 ada_hash) = Some false.
Proof.
  cbn zeta. split; [vm_compute; eauto|]. split.
  - eexists. split; [vm_compute; reflexivity|reflexivity].
  - split; [vm_compute; reflexivity|]. split; [|vm_compute; reflexivity].
    vm_compute. discriminate.
Qed.

(** C8 as stated: with two records under one email, the delete removes the
    first and a later login still finds the second; and a delete with an
    empty email is answered with "email is required". *)
Lemma delete_leaves_duplicate :
  let out := delete_profile "ada@example.com" ada_twice in
  let request := form_request (login_form "ada@example.com" "secret1") in
  map _id (users_coll ada_twice) = ["65a1"; "65a2"] /\
  out.1 = Returned (RSuccess "Profile deleted successfully") /\
  map _id (users_coll out.2) = ["65a2"] /\
  find_one (VStr "ada@example.com") (users_coll out.2) = Some (ada_doc "65a2") /\
  (exists token user, login ∅ request 0 out.2 = (Returned (RLogin token user), out.2)) /\
  login ∅ request 0 out.2 <> (Returned (RFailure "invalid username" None), out.2) /\
  find_one (VStr "") (users_coll ada_world) = None /\
  delete_profile "" ada_world = (Returned (RFailure "email is required" None), ada_world).
Proof.
  cbn zeta.
  assert (exists token user,
            login ∅ (form_request (login_form "ada@example.com" "secret1")) 0
              (delete_profile "ada@example.com" ada_twice).2 =
            (Returned (RLogin token user), (delete_profile "ada@example.com" ada_twice).2))
    as (token & user & E) by (eexists _, _; vm_compute; reflexivity).
  split; [vm_compute; reflexivity|]. split; [vm_compute; reflexivity|].
  split; [vm_compute; reflexivity|]. split; [vm_compute; reflexivity|].
  split; [eauto|]. split; [rewrite E; intros [=]|].
  split; vm_compute; reflexivity.
Qed.

(** * Further properties of the handlers *)

Section FurtherFacts.
Context {Py : Pydantic} {Bc : Bcrypt} {Jw : PyJWT} {Fs : FileSystem}.

Lemma world_eta (w : world) :
  {| users_coll := users_coll w; uploads := uploads w |} = w.
Proof. destruct w. reflexivity. Qed.

(** The loop of [signup] builds [signup_mapping] and leaves the collection
    alone. *)
Lemma signup_fields_spec items : forall data w r w',
  signup_fields items data w = (r, w') ->
  forall d, r = Returned d -> d = signup_mapping items data.
Proof.
  induction items as [|[key [s|filename content]] items IH]; intros data w r w'.
  - intros [= <- <-] d [= <-]. reflexivity.
  - cbn [signup_fields signup_mapping signup_entry]. apply IH.
  - cbn [signup_fields signup_mapping signup_entry]. run.
    destruct (save_upload filename content w) as [[p|e] w1] eqn:E.
    + assert (p = path_join UPLOAD_DIR filename) as ->.
      { unfold save_upload in E.
        destruct (write_file _ content (uploads w)); congruence. }
      apply IH.
    + intros [= <- <-]. discriminate.
Qed.

Lemma signup_mapping_lookup_inv (P : option value -> Prop) (key : string)
    (items : form_data) (data : gmap string value) :
  P (data !! key) ->
  (forall v, In (key, v) items -> P (Some (signup_entry v))) ->
  P (signup_mapping items data !! key).
Proof.
  revert data. induction items as [|[k v] items IH]; intros data H0 Hins; [exact H0|].
  cbn [signup_mapping]. apply IH.
  - destruct (decide (k = key)) as [->|Hne].
    + rewrite lookup_insert_eq. apply Hins. left. reflexivity.
    + rewrite lookup_insert_ne by exact Hne. exact H0.
  - intros v' Hin. apply Hins. right. exact Hin.
Qed.

Lemma signup_mapping_lookup_NoDup (key : string) (v : form_value)
    (items : form_data) (data : gmap string value) :
  NoDup (map fst items) ->
  In (key, v) items ->
  signup_mapping items data !! key = Some (signup_entry v).
Proof.
  revert data. induction items as [|[k v'] items IH]; intros data Hnd Hin; [destruct Hin|].
  cbn in Hnd. apply NoDup_cons in Hnd as [Hk Hnd].
  destruct Hin as [[= -> ->]|Hin].
  - cbn [signup_mapping].
    apply (signup_mapping_lookup_inv (fun o => o = Some (signup_entry v))).
    + apply lookup_insert_eq.
    + intros v2 Hin2. exfalso. apply Hk.
      apply list_elem_of_In. apply (in_map fst) in Hin2. exact Hin2.
  - cbn [signup_mapping]. apply IH; assumption.
Qed.

(** The model that validation builds, field by field. *)
Lemma SignupModel_validate_fields (data : gmap string value) valid :
  SignupModel_validate data = inr valid ->
  validate_field data "firstName" (validate_str 2 (Some 30%nat)) = inr (firstName valid) /\
  validate_field data "lastName" (validate_str 1 (Some 30%nat)) = inr (lastName valid) /\
  validate_field data "age" (validate_int 1 120) = inr (age valid) /\
  validate_field data "email" validate_EmailStr = inr (email valid) /\
  validate_field data "password" (validate_str 6 None) = inr (password valid) /\
  validate_field data "mobileNo" (validate_str 10 (Some 15%nat)) = inr (mobileNo valid) /\
  validate_field data "profilePic" (validate_str 0 None) = inr (profilePic valid).
Proof.
  intros E. unfold SignupModel_validate in E.
  apply collect_inr in E as (g7 & pic & E & Hpic & ->).
  apply collect_inr in E as (g6 & mob & E & Hmob & ->).
  apply collect_inr in E as (g5 & pw & E & Hpw & ->).
  apply collect_inr in E as (g4 & em & E & Hem & ->).
  apply collect_inr in E as (g3 & ag & E & Hag & ->).
  apply collect_inr in E as (g2 & ln & E & Hln & ->).
  apply collect_inr in E as (g1 & fn & E & Hfn & ->).
  injection E as <-. cbn. auto 10.
Qed.

Lemma validate_str_bounds lo hi (v : value) (s : string) :
  validate_str lo (Some hi) v = inr s -> chars_between lo hi (VStr s) = true.
Proof.
  intros E. pose proof E as [-> _]%validate_str_inr.
  apply validate_str_between. eauto.
Qed.

Lemma validate_int_bounds lo hi (v : value) (n : Z) :
  validate_int lo hi v = inr n -> lax_int v = inr n /\ int_between lo hi (VInt n) = true.
Proof.
  unfold validate_int. destruct (lax_int v) as [e|m]; [discriminate|].
  destruct (Z.ltb_spec m lo); [discriminate|].
  destruct (Z.ltb_spec hi m); [discriminate|].
  intros [= <-]. split; [reflexivity|]. cbn.
  apply andb_true_iff. rewrite !Z.leb_le. lia.
Qed.

(** The fields of the model, as [model_dump] and the [$set] of an update
    lay them over a record. *)
Lemma dumped_lookup valid (pw : value) (old : gmap string value) :
  let doc := <["password" := pw]> (model_dump valid) ∪ old in
  doc !! "firstName" = Some (VStr (firstName valid)) /\
  doc !! "lastName" = Some (VStr (lastName valid)) /\
  doc !! "age" = Some (VInt (age valid)) /\
  doc !! "email" = Some (VStr (email valid)) /\
  doc !! "password" = Some pw /\
  doc !! "mobileNo" = Some (VStr (mobileNo valid)) /\
  doc !! "profilePic" = Some (VStr (profilePic valid)).
Proof.
  cbn zeta. unfold model_dump.
  repeat split; apply lookup_union_Some_l;
    repeat (rewrite lookup_insert_ne by discriminate); apply lookup_insert_eq.
Qed.

Lemma dumped_lookup_other valid (pw : value) (old : gmap string value) (k : string) :
  ~ In k model_fields ->
  (<["password" := pw]> (model_dump valid) ∪ old) !! k = old !! k.
Proof.
  intros Hk. rewrite lookup_union_r; [reflexivity|].
  unfold model_dump.
  repeat (rewrite lookup_insert_ne; [|intros <-; apply Hk; cbn; tauto]).
  apply lookup_empty.
Qed.

Lemma dumped_record_ok valid (h : string) (old : gmap string value) (oid : string)
    (data : gmap string value) :
  SignupModel_validate data = inr valid ->
  record_ok {| _id := oid;
               fields := <["password" := VStr h]> (model_dump valid) ∪ old |} = true.
Proof.
  intros (Hfn & Hln & Hag & _ & _ & Hmob & _)%SignupModel_validate_fields.
  apply validate_field_inr in Hfn as (? & _ & Hfn%validate_str_bounds).
  apply validate_field_inr in Hln as (? & _ & Hln%validate_str_bounds).
  apply validate_field_inr in Hag as (? & _ & [_ Hag]%validate_int_bounds).
  apply validate_field_inr in Hmob as (? & _ & Hmob%validate_str_bounds).
  destruct (dumped_lookup valid (VStr h) old) as (E1 & E2 & E3 & E4 & E5 & E6 & E7).
  unfold record_ok, field_is. cbn [fields].
  rewrite E1, E2, E3, E4, E5, E6, E7, Hfn, Hln, Hag, Hmob. reflexivity.
Qed.



Lemma read_only_ret {A} (a : A) : read_only (mret a).
Proof. intros w. reflexivity. Qed.

Lemma read_only_raise {A} (e : exn) : read_only (raise (A := A) e).
Proof. intros w. reflexivity. Qed.

Lemma read_only_lookup {A} (f : list document -> A) :
  read_only (with_coll (fun coll => (coll, f coll))).
Proof. intros [coll fs]. reflexivity. Qed.

Lemma read_only_bind {A B} (m : M A) (f : A -> M B) :
  read_only m -> (forall a, read_only (f a)) -> read_only (m ≫= f).
Proof.
  intros Hm Hf w. unfold mbind, M_bind. specialize (Hm w).
  destruct (m w) as [[a|e] w1]; cbn in Hm; subst w1; [apply Hf|reflexivity].
Qed.

(** X1. [login] changes neither the collection nor the upload directory,
    whatever it answers or raises. *)
Theorem login_reads_only environ request utcnow w :
  (login environ request utcnow w).2 = w.
Proof.
  assert (read_only (login environ request utcnow)) as Hro.
  { unfold login, request_form, failure.
    repeat first
      [ apply read_only_ret | apply read_only_raise | apply read_only_lookup
      | apply read_only_bind
      | progress cbn zeta
      | match goal with
        | |- forall _, _ => intro
        | |- read_only (match ?x with _ => _ end) => destruct x
        end ]. }
  apply Hro.
Qed.

(** A signup that answers "Signup successful" read a body, validated it
    and appended the dumped model under the fresh identifier. *)
Lemma signup_success_inv request gensalt oid w msg inserted_id :
  (signup request gensalt oid w).1 = Returned (RSignup msg inserted_id) ->
  exists data w1 valid h,
    signup_read_body request w = (Returned (Some data), w1) /\
    SignupModel_validate data = inr valid /\
    encode_utf8 h = hashpw (encode_utf8 (password valid)) gensalt /\
    inserted_id = oid /\
    signup request gensalt oid w =
      (Returned (RSignup "Signup successful" oid),
       {| users_coll :=
            users_coll w ++
            [{| _id := oid; fields := <["password" := VStr h]> (model_dump valid) |}];
          uploads := uploads w1 |}).
Proof.
  unfold signup. run.
  destruct (signup_read_body request w) as [[[data|]|e] w1] eqn:Eb;
    try discriminate.
  pose proof (signup_read_body_coll _ _ _ _ Eb) as Hc.
  destruct (SignupModel_validate data) as [errors|valid] eqn:Ev; [discriminate|].
  destruct (hash_password (password valid) gensalt w1) as [[h|e] w2] eqn:Eh;
    apply hash_password_spec in Eh as [-> Eh]; [|discriminate].
  cbn. intros [= <- <-]. exists data, w1, valid, h.
  unfold insert_one. rewrite Hc. auto 10.
Qed.

Lemma signup_failure_coll request gensalt oid w :
  (forall msg inserted_id,
     (signup request gensalt oid w).1 <> Returned (RSignup msg inserted_id)) ->
  users_coll (signup request gensalt oid w).2 = users_coll w.
Proof.
  unfold signup. run.
  destruct (signup_read_body request w) as [[[data|]|e] w1] eqn:Eb;
    pose proof (signup_read_body_coll _ _ _ _ Eb) as Hc; try (intros _; exact Hc).
  destruct (SignupModel_validate data) as [errors|valid]; [intros _; exact Hc|].
  destruct (hash_password (password valid) gensalt w1) as [[h|e] w2] eqn:Eh;
    apply hash_password_spec in Eh as [-> Eh]; [|intros _; exact Hc].
  cbn. intros Hno. exfalso. exact (Hno _ _ eq_refl).
Qed.

Lemma dumped_keys valid (pw : value) (k : string) :
  is_Some ((<["password" := pw]> (model_dump valid)) !! k) <-> In k model_fields.
Proof.
  split.
  - intros Hs. destruct (in_dec string_dec k model_fields) as [Hin|Hout]; [exact Hin|].
    exfalso.
    assert ((<["password" := pw]> (model_dump valid)) !! k = None) as Hnone.
    { unfold model_dump.
      repeat (rewrite lookup_insert_ne; [|intros <-; apply Hout; cbn; tauto]).
      apply lookup_empty. }
    rewrite Hnone in Hs. destruct Hs as [? [=]].
  - intros Hin.
    destruct (dumped_lookup valid pw ∅) as (E1 & E2 & E3 & E4 & E5 & E6 & E7).
    rewrite (right_id_L ∅ (∪)) in E1, E2, E3, E4, E5, E6, E7.
    cbn in Hin. repeat destruct Hin as [<-|Hin]; try (eexists; eassumption).
    destruct Hin.
Qed.

(** X2. [signup] changes the collection only when it answers "Signup
    successful": then exactly one record is appended, under the returned
    identifier, and it holds the seven fields of the model and no other;
    any other answer, and any raised fault, leaves the collection as it was. *)
Theorem signup_inserts_on_success_only request gensalt oid w :
  let out := signup request gensalt oid w in
  match out.1 with
  | Returned (RSignup _ inserted_id) =>
      inserted_id = oid /\
      exists doc,
        users_coll out.2 = users_coll w ++ [doc] /\
        _id doc = oid /\
        forall k, is_Some (fields doc !! k) <-> In k model_fields
  | _ => users_coll out.2 = users_coll w
  end.
Proof.
  cbn zeta.
  destruct (signup request gensalt oid w).1 as [[| msg inserted_id | | |]|e] eqn:E;
    try (apply signup_failure_coll; intros ? ?; rewrite E; discriminate).
  apply signup_success_inv in E as (data & w1 & valid & h & _ & _ & _ & -> & ->).
  split; [reflexivity|]. eexists. split; [reflexivity|]. split; [reflexivity|].
  intros k. apply dumped_keys.
Qed.


(** X3. A signup with a JSON content type never touches the upload
    directory. *)
Theorem signup_json_leaves_uploads request gensalt oid w :
  contains "application/json" (default "" (content_type request)) = true ->
  uploads (signup request gensalt oid w).2 = uploads w.
Proof.
  intros Hj. unfold signup, signup_read_body. run. rewrite Hj.
  destruct (json request) as [data| |]; try reflexivity.
  destruct (SignupModel_validate data) as [errors|valid]; [reflexivity|].
  destruct (hash_password (password valid) gensalt w) as [[h|e] w2] eqn:Eh;
    apply hash_password_spec in Eh as [-> Eh]; reflexivity.
Qed.

(** The body of a form signup is the mapping of its fields. *)
Lemma signup_read_body_form request w data w1 items :
  contains "application/json" (default "" (content_type request)) = false ->
  form request = Some items ->
  signup_read_body request w = (Returned (Some data), w1) ->
  data = signup_mapping items ∅.
Proof.
  intros Hj Hform. unfold signup_read_body, request_form. run. rewrite Hj, Hform.
  destruct (_ || _); [|discriminate].
  destruct (signup_fields items ∅ w) as [[d|e] w2] eqn:E; [|discriminate].
  intros [= <- <-]. exact (signup_fields_spec _ _ _ _ _ E d eq_refl).
Qed.

(** X4. A successful form signup whose profilePic field is an upload stores,
    as profilePic, the file name under "uploads/", or the file name
    itself when it starts with a slash. *)
Theorem signup_stores_upload_path request gensalt oid w items filename content
    msg inserted_id :
  contains "application/json" (default "" (content_type request)) = false ->
  form request = Some items ->
  NoDup (map fst items) ->
  In ("profilePic", Upload filename content) items ->
  (signup request gensalt oid w).1 = Returned (RSignup msg inserted_id) ->
  exists doc,
    users_coll (signup request gensalt oid w).2 = users_coll w ++ [doc] /\
    fields doc !! "profilePic" =
      Some (VStr (if startswith filename "/" then filename
                  else ("uploads/" ++ filename)%string)).
Proof.
  intros Hj Hform Hnd Hin E.
  apply signup_success_inv in E as (data & w1 & valid & h & Eb & Ev & _ & _ & ->).
  eexists. split; [reflexivity|]. cbn [fields].
  rewrite update_doc_profilePic.
  apply SignupModel_validate_inr in Ev as (_ & _ & _ & _ & Hpic).
  rewrite (signup_read_body_form _ _ _ _ _ Hj Hform Eb) in Hpic.
  rewrite (signup_mapping_lookup_NoDup _ _ _ _ Hnd Hin) in Hpic.
  rewrite <- Hpic. cbn [signup_entry]. unfold path_join.
  destruct (startswith filename "/"); reflexivity.
Qed.

(** X5. After a valid signup for an email that no record had, a login with
    the stored email and the submitted password succeeds, and its user
    object holds the new identifier and the dumped fields without the
    password. *)
Theorem signup_then_login {Laws : BcryptLaws}
    request gensalt oid w w1 data valid environ login_req utcnow :
  signup_read_body request w = (Returned (Some data), w1) ->
  SignupModel_validate data = inr valid ->
  find_one (VStr (email valid)) (users_coll w) = None ->
  login_request login_req (email valid) (password valid) ->
  email valid <> "" ->
  hashpw (encode_utf8 (password valid)) gensalt <> [] ->
  let w' := (signup request gensalt oid w).2 in
  exists token user,
    login environ login_req utcnow w' = (Returned (RLogin token user), w') /\
    user !! "_id" = Some (VStr oid) /\
    user !! "password" = None /\
    forall k, k <> "password" -> k <> "_id" -> user !! k = model_dump valid !! k.
Proof.
  intros Eb Ev Hnone Hreq He Hhash w'. subst w'.
  destruct (signup_valid request gensalt oid _ _ _ _ Eb Ev) as (h & Eh & ->).
  cbn [snd].
  assert (password valid <> "") as Hp.
  { apply SignupModel_validate_inr in Ev as (_ & _ & _ & Hlen & _).
    intros E0. rewrite E0 in Hlen. cbn in Hlen. lia. }
  rewrite (login_run _ _ _ _ _ _ Hreq He Hp). cbn [users_coll].
  unfold insert_one. rewrite find_one_app by exact Hnone.
  cbn [find_one]. unfold matches at 1. cbn [fields].
  rewrite bool_decide_eq_true_2
    by (rewrite lookup_insert_ne by discriminate; unfold model_dump;
        repeat (rewrite lookup_insert_ne by discriminate); apply lookup_insert_eq).
  cbn [fields]. rewrite lookup_insert_eq.
  assert (h <> "") as Hh.
  { intros ->. apply Hhash. rewrite <- Eh. reflexivity. }
  apply length_eqb_0 in Hh. cbn [falsy truthy]. rewrite Hh. cbn [negb].
  rewrite Eh, checkpw_hashpw.
  eexists _, _. split; [reflexivity|]. unfold login_user. cbn [_id fields].
  split; [apply lookup_insert_eq|]. split.
  - rewrite lookup_insert_ne by discriminate. apply lookup_delete_eq.
  - intros k Hk1 Hk2. rewrite lookup_insert_ne by congruence.
    rewrite lookup_delete_ne by congruence. apply lookup_insert_ne. congruence.
Qed.


Lemma find_one_app_Some email pre post doc :
  find_one email pre = Some doc -> find_one email (pre ++ post) = Some doc.
Proof.
  induction pre as [|d pre IH]; cbn; [discriminate|].
  destruct (matches email d); [auto|exact IH].
Qed.

(** The ways [delete_profile] ends: the world is as it was, or the first
    record under the email is gone. *)
Lemma delete_profile_cases email w :
  (delete_profile email w).2 = w \/
  exists doc pre post,
    email <> "" /\
    find_one (VStr email) (users_coll w) = Some doc /\
    users_coll w = pre ++ doc :: post /\
    find_one (VStr email) pre = None /\
    delete_profile email w =
      (Returned (RSuccess "Profile deleted successfully"),
       {| users_coll := pre ++ post; uploads := uploads w |}).
Proof.
  destruct w as [coll fs]. unfold delete_profile. run.
  destruct (String.length email =? 0)%nat eqn:He; [left; reflexivity|].
  cbn [users_coll uploads].
  destruct (find_one (VStr email) coll) as [doc|] eqn:Hu; [|left; reflexivity].
  destruct (delete_one_Some _ _ _ Hu) as (pre & post & Hc & Hpre & Hd).
  cbn [users_coll uploads]. rewrite Hd. cbn.
  right. exists doc, pre, post. apply length_eqb_0 in He. auto 10.
Qed.

(** X6. A signup never changes which record a lookup by an email that was
    already there returns, so a login for that email is answered as
    before the signup. *)
Theorem signup_never_shadows request gensalt oid w email doc :
  find_one email (users_coll w) = Some doc ->
  let w' := (signup request gensalt oid w).2 in
  find_one email (users_coll w') = Some doc /\
  forall environ login_req utcnow e p,
    email = VStr e -> login_request login_req e p -> e <> "" -> p <> "" ->
    (login environ login_req utcnow w').1 = (login environ login_req utcnow w).1.
Proof.
  intros Hfind w'.
  assert (find_one email (users_coll w') = Some doc) as Hfind'.
  { subst w'. destruct (signup request gensalt oid w) as [r w1] eqn:E. cbn [snd].
    apply signup_coll in E as [->|(valid & h & _ & ->)]; [exact Hfind|].
    apply find_one_app_Some. exact Hfind. }
  split; [exact Hfind'|].
  intros environ login_req utcnow e p -> Hreq He Hp.
  rewrite !(login_run _ _ _ _ _ _ Hreq He Hp), Hfind, Hfind'.
  destruct (falsy _); [reflexivity|].
  destruct (fields doc !! "password") as [[| | |h]|]; try reflexivity.
  destruct (checkpw _ _) as [[|]|]; reflexivity.
Qed.



(** X8. [signup], [update_profile] and [delete_profile] keep every record of
    the collection well formed: text fields within the bounds of the
    model, the age an [int] from 1 to 120. *)
Theorem handlers_keep_records_well_formed :
  (forall request gensalt oid w,
     Forall (fun d => record_ok d = true) (users_coll w) ->
     Forall (fun d => record_ok d = true) (users_coll (signup request gensalt oid w).2)) /\
  (forall request gensalt w,
     Forall (fun d => record_ok d = true) (users_coll w) ->
     Forall (fun d => record_ok d = true) (users_coll (update_profile request gensalt w).2)) /\
  (forall email w,
     Forall (fun d => record_ok d = true) (users_coll w) ->
     Forall (fun d => record_ok d = true) (users_coll (delete_profile email w).2)).
Proof.
  split; [|split].
  - intros request gensalt oid w Hok.
    pose proof (signup_failure_coll request gensalt oid w) as Hfail.
    destruct (signup request gensalt oid w).1 as [[| msg inserted_id | | |]|e] eqn:E;
      try (rewrite Hfail by (intros ? ?; discriminate); exact Hok).
    apply signup_success_inv in E as (data & w1 & valid & h & _ & Ev & _ & _ & ->).
    cbn [snd users_coll]. apply Forall_app. split; [exact Hok|].
    constructor; [|constructor].
    rewrite <- (right_id_L ∅ (∪) (<["password" := VStr h]> (model_dump valid))).
    exact (dumped_record_ok _ _ _ _ _ Ev).
  - intros request gensalt w Hok.
    destruct (update_profile request gensalt w) as [r w'] eqn:E. cbn [snd].
    apply update_profile_cases in E as [[-> _]|E]; [exact Hok|].
    destruct E as (items & email & existing_user & valid & new_password
                   & _ & _ & _ & Hu & Hv & Hp & _ & ->).
    destruct (update_one_Some email (<["password" := new_password]> (model_dump valid))
                _ _ Hu) as (i & _ & _ & ->).
    cbn [fst]. apply Forall_insert; [exact Hok|].
    assert (exists h, new_password = VStr h) as [h ->].
    { destruct (merge _ existing_user).2 eqn:Es.
      - subst new_password. rewrite merge_skip_hash in Es.
        apply SignupModel_validate_inr in Hv as (_ & _ & Hvp & _).
        rewrite merge_password, Es in Hvp. injection Hvp as ->. eauto.
      - destruct Hp as (h & -> & _). eauto. }
    exact (dumped_record_ok _ _ _ _ _ Hv).
  - intros email w Hok.
    destruct (delete_profile_cases email w)
      as [->|(doc & pre & post & _ & _ & Hc & _ & ->)]; [exact Hok|].
    cbn [snd users_coll].
    rewrite Hc in Hok. apply Forall_app in Hok as [Hpre Hpost].
    apply Forall_app. split; [exact Hpre|]. inversion Hpost; assumption.
Qed.


Lemma merge_other data existing_user (k : string) :
  k <> "profilePic" -> k <> "password" ->
  (merge data existing_user).1 !! k = data !! k.
Proof.
  intros H1 H2. unfold merge.
  destruct (data !! "profilePic"), (fields existing_user !! "profilePic");
    destruct (falsy _); cbn [fst];
    rewrite ?lookup_insert_ne by congruence; reflexivity.
Qed.

(** X9. [update_profile] keeps the identifiers and the order of the records
    and every field that is not of the model; the only record it can
    change is the first one under the submitted email. *)
Theorem update_rewrites_one_record request gensalt w :
  let w' := (update_profile request gensalt w).2 in
  map _id (users_coll w') = map _id (users_coll w) /\
  (forall k, ~ In k model_fields ->
     map (fun d => fields d !! k) (users_coll w') =
     map (fun d => fields d !! k) (users_coll w)) /\
  (forall j d d',
     users_coll w !! j = Some d -> users_coll w' !! j = Some d' -> d' <> d ->
     exists items email,
       form request = Some items /\
       update_mapping items ∅ !! "email" = Some email /\
       first_match email (users_coll w) = Some j).
Proof.
  cbn zeta. destruct (update_profile request gensalt w) as [r w'] eqn:E. cbn [snd].
  apply update_profile_cases in E as [[-> _]|E].
  { split; [reflexivity|]. split; [reflexivity|]. intros j d d' Hd Hd' Hne. congruence. }
  destruct E as (items & email & existing_user & valid & new_password
                 & Hform & He & _ & Hu & _ & _ & _ & ->).
  destruct (update_one_Some email (<["password" := new_password]> (model_dump valid))
              _ _ Hu) as (i & Hi & Hl & ->).
  cbn [fst]. split; [|split].
  - rewrite list_fmap_insert. cbn [_id]. apply list_insert_id.
    rewrite list_lookup_fmap, Hl. reflexivity.
  - intros k Hk. rewrite list_fmap_insert. cbn [fields]. apply list_insert_id.
    rewrite list_lookup_fmap, Hl. cbn. rewrite dumped_lookup_other by exact Hk.
    reflexivity.
  - intros j d d' Hd Hd' Hne. exists items, email.
    split; [exact Hform|]. split; [exact He|].
    destruct (decide (i = j)) as [<-|Hij]; [exact Hi|].
    rewrite list_lookup_insert_ne in Hd' by exact Hij. congruence.
Qed.

(** X10. After a successful update the rewritten record holds the submitted
    firstName, lastName and mobileNo, the age as the [int] it parses to,
    and the normalized email. *)
Theorem update_stores_the_submission request gensalt w w' :
  update_profile request gensalt w =
    (Returned (RSuccess "Profile updated successfully"), w') ->
  exists items email i doc,
    let data := update_mapping items ∅ in
    form request = Some items /\
    data !! "email" = Some email /\
    first_match email (users_coll w) = Some i /\
    users_coll w' !! i = Some doc /\
    fields doc !! "firstName" = data !! "firstName" /\
    fields doc !! "lastName" = data !! "lastName" /\
    fields doc !! "mobileNo" = data !! "mobileNo" /\
    (exists v n, data !! "age" = Some v /\ lax_int v = inr n /\
                 fields doc !! "age" = Some (VInt n)) /\
    (exists e e', email = VStr e /\ validate_email e = Some e' /\
                  fields doc !! "email" = Some (VStr e')).
Proof.
  intros E. apply update_profile_success in E
    as (items & email & existing_user & valid & new_password & i
        & Hform & He & _ & _ & Hv & _ & Hi & Hl).
  exists items, email, i. eexists. cbn zeta.
  split; [exact Hform|]. split; [exact He|]. split; [exact Hi|]. split; [exact Hl|].
  cbn [fields].
  destruct (dumped_lookup valid new_password (fields existing_user))
    as (E1 & E2 & E3 & E4 & _ & E6 & _).
  rewrite E1, E2, E3, E4, E6.
  apply SignupModel_validate_fields in Hv as (Hfn & Hln & Hag & Hem & _ & Hmob & _).
  apply validate_field_inr in Hfn as (v1 & Hfn & [-> _]%validate_str_inr).
  apply validate_field_inr in Hln as (v2 & Hln & [-> _]%validate_str_inr).
  apply validate_field_inr in Hmob as (v6 & Hmob & [-> _]%validate_str_inr).
  apply validate_field_inr in Hag as (v3 & Hag & [Hlax _]%validate_int_bounds).
  apply validate_field_inr in Hem as (v4 & Hem & Vem).
  rewrite merge_other in Hfn, Hln, Hmob, Hag, Hem by discriminate.
  rewrite He in Hem. injection Hem as <-.
  split; [symmetry; exact Hfn|]. split; [symmetry; exact Hln|].
  split; [symmetry; exact Hmob|]. split; [eauto|].
  unfold validate_EmailStr in Vem. destruct email as [| | |e]; try discriminate.
  destruct (validate_email e) as [e'|] eqn:Ee; [|discriminate].
  injection Vem as <-. eauto.
Qed.


(** X11. An update that fails after its form was read (no email, no record
    under the email, validation errors) leaves the collection as it was
    and keeps the files the loop wrote. *)
Theorem update_failure_keeps_written_uploads request gensalt w items data w1 :
  contains "multipart/form-data" (default "" (content_type request)) = true ->
  form request = Some items ->
  update_fields items ∅ w = (Returned data, w1) ->
  users_coll w1 = users_coll w /\
  (falsy (data !! "email") = true ->
   update_profile request gensalt w =
     (Returned (RFailure "email is required to update profile" None), w1)) /\
  (forall email,
     data !! "email" = Some email -> truthy email = true ->
     find_one email (users_coll w) = None ->
     update_profile request gensalt w =
       (Returned (RFailure "user not found" None), w1)) /\
  (forall email existing_user errors,
     data !! "email" = Some email -> truthy email = true ->
     find_one email (users_coll w) = Some existing_user ->
     SignupModel_validate (merge data existing_user).1 = inl errors ->
     update_profile request gensalt w =
       (Returned (RFailure "Validation failed" (Some errors)), w1)).
Proof.
  intros Hct Hform Ef.
  pose proof (update_fields_spec _ _ _ _ _ Ef) as [Hc _].
  split; [exact Hc|].
  unfold update_profile, request_form. run. rewrite Hct, Hform. cbn [negb]. rewrite Ef.
  destruct w1 as [coll1 fs1]. cbn [users_coll uploads] in *. subst coll1.
  split; [|split].
  - intros Hfalsy. destruct (data !! "email") as [email|]; [|reflexivity].
    cbn in Hfalsy. rewrite Hfalsy. reflexivity.
  - intros email -> -> Hnone. cbn [negb users_coll uploads]. rewrite Hnone. reflexivity.
  - intros email existing_user errors -> -> Hu Hv. cbn [negb users_coll uploads].
    rewrite Hu.
    destruct (merge data existing_user) as [data' skip_hash]. cbn [fst] in Hv.
    rewrite Hv. reflexivity.
Qed.

Lemma delete_one_other email coll :
  List.filter (fun d => negb (matches email d)) (delete_one email coll).1 =
  List.filter (fun d => negb (matches email d)) coll.
Proof.
  induction coll as [|d coll IH]; [reflexivity|]. cbn [delete_one].
  destruct (matches email d) eqn:Ed.
  - cbn. rewrite Ed. reflexivity.
  - destruct (delete_one email coll) as [rest n]. cbn in *. rewrite Ed, IH. reflexivity.
Qed.

Lemma find_one_filter_other email other coll :
  other <> email ->
  find_one other (List.filter (fun d => negb (matches email d)) coll) =
  find_one other coll.
Proof.
  intros Hne. induction coll as [|d coll IH]; [reflexivity|]. cbn.
  destruct (matches email d) eqn:Ed; cbn.
  - destruct (matches other d) eqn:Eo; [|exact IH].
    unfold matches in Ed, Eo. apply bool_decide_eq_true in Ed, Eo. congruence.
  - destruct (matches other d); [reflexivity|exact IH].
Qed.

(** X12. [delete_profile] removes no record under another email, leaves the
    lookup of every other email and the upload directory as they were,
    and shortens the collection by one exactly when it answers success. *)
Theorem delete_spares_other_emails email w :
  let w' := (delete_profile email w).2 in
  List.filter (fun d => negb (matches (VStr email) d)) (users_coll w') =
  List.filter (fun d => negb (matches (VStr email) d)) (users_coll w) /\
  (forall other, other <> VStr email ->
     find_one other (users_coll w') = find_one other (users_coll w)) /\
  uploads w' = uploads w /\
  length (users_coll w') =
    match (delete_profile email w).1 with
    | Returned (RSuccess _) => (length (users_coll w) - 1)%nat
    | _ => length (users_coll w)
    end.
Proof.
  cbn zeta.
  assert (List.filter (fun d => negb (matches (VStr email) d))
            (users_coll (delete_profile email w).2) =
          List.filter (fun d => negb (matches (VStr email) d)) (users_coll w)) as Hf.
  { destruct (delete_profile_cases email w)
      as [->|(doc & pre & post & _ & Hu & Hc & Hpre & ->)]; [reflexivity|].
    cbn [snd users_coll]. rewrite Hc, !List.filter_app. cbn [List.filter].
    replace (matches (VStr email) doc) with true; [reflexivity|].
    symmetry. apply bool_decide_eq_true. exact (find_one_matches _ _ _ Hu). }
  split; [exact Hf|]. split; [|split].
  - intros other Hne.
    rewrite <- (find_one_filter_other (VStr email) other (users_coll w)) by exact Hne.
    rewrite <- Hf. symmetry. apply find_one_filter_other. exact Hne.
  - destruct (delete_profile_cases email w)
      as [->|(doc & pre & post & _ & _ & _ & _ & ->)]; reflexivity.
  - destruct w as [coll fs]. unfold delete_profile. run.
    destruct (String.length email =? 0)%nat; [reflexivity|].
    cbn [users_coll uploads].
    destruct (find_one (VStr email) coll) as [doc|] eqn:Hu; [|reflexivity].
    destruct (delete_one_Some _ _ _ Hu) as (pre & post & -> & _ & Hd).
    cbn [users_coll uploads]. rewrite Hd. cbn.
    rewrite !length_app. cbn. lia.
Qed.

Lemma find_one_insert_first email coll i doc' :
  first_match email coll = Some i ->
  matches email doc' = true ->
  find_one email (<[i := doc']> coll) = Some doc'.
Proof.
  revert i. induction coll as [|d coll IH]; intros i; cbn; [discriminate|].
  destruct (matches email d) eqn:Ed.
  - intros [= <-] Hm. cbn. rewrite Hm. reflexivity.
  - destruct (first_match email coll) as [j|]; [|discriminate].
    intros [= <-] Hm. cbn. rewrite Ed. apply IH; auto.
Qed.

(** X13. After a successful update with a new password, under an email that
    is its own normal form, a login with that email and the new password
    succeeds. *)
Theorem update_then_login {Laws : BcryptLaws}
    request gensalt w w' items e p environ login_req utcnow :
  update_profile request gensalt w =
    (Returned (RSuccess "Profile updated successfully"), w') ->
  form request = Some items ->
  NoDup (map fst items) ->
  In ("email", Text e) items ->
  In ("password", Text p) items ->
  p <> "" ->
  validate_email e = Some e ->
  hashpw (encode_utf8 p) gensalt <> [] ->
  login_request login_req e p ->
  exists token user,
    login environ login_req utcnow w' = (Returned (RLogin token user), w').
Proof.
  intros E Hform Hnd Hine Hinp Hp Hnorm Hhash Hreq.
  pose proof E as Hcases. apply update_profile_cases in Hcases as [[_ Hr]|Hcases];
    [congruence|].
  destruct Hcases as (items' & email & existing_user & valid & new_password
                      & Hform' & He & Ht & Hu & Hv & Hnp & _ & Hw).
  rewrite Hform in Hform'. injection Hform' as <-.
  rewrite (update_mapping_lookup_NoDup "email" (Text e) (VStr e)) in He by auto.
  injection He as <-.
  assert (update_mapping items ∅ !! "password" = Some (VStr p)) as Hpw
    by (apply (update_mapping_lookup_NoDup "password" (Text p)); auto).
  assert (falsy (Some (VStr p)) = false) as Hfalsy
    by (cbn; apply length_eqb_0 in Hp; rewrite Hp; reflexivity).
  rewrite merge_skip_hash, Hpw, Hfalsy in Hnp. destruct Hnp as (h & -> & Eh).
  pose proof Hv as (_ & _ & _ & Hem & Hvp & _)%SignupModel_validate_fields.
  apply validate_field_inr in Hvp as (vp & Hvp & [-> _]%validate_str_inr).
  rewrite merge_password, Hpw, Hfalsy in Hvp. injection Hvp as Hvp.
  apply validate_field_inr in Hem as (ve & Hem & Vem).
  rewrite merge_other in Hem by discriminate.
  rewrite (update_mapping_lookup_NoDup "email" (Text e) (VStr e)) in Hem by auto.
  injection Hem as <-. cbn in Vem. rewrite Hnorm in Vem. injection Vem as Hev.
  rewrite <- Hvp in Eh.
  destruct (update_one_Some (VStr e) (<["password" := VStr h]> (model_dump valid))
              _ _ Hu) as (i & Hi & _ & Eu).
  rewrite Eu in Hw. cbn [fst] in Hw.
  assert (e <> "") as He0 by (intros ->; discriminate Ht).
  rewrite (login_run _ _ _ _ _ _ Hreq He0 Hp), Hw.
  destruct (dumped_lookup valid (VStr h) (fields existing_user))
    as (_ & _ & _ & E4 & E5 & _).
  rewrite (find_one_insert_first _ _ _ _ Hi)
    by (apply bool_decide_eq_true; cbn [fields]; rewrite E4, Hev; reflexivity).
  cbn [fields]. rewrite E5.
  assert (h <> "") as Hh by (intros ->; apply Hhash; rewrite <- Eh; reflexivity).
  apply length_eqb_0 in Hh. cbn [falsy truthy]. rewrite Hh. cbn [negb].
  rewrite Eh, checkpw_hashpw. eauto.
Qed.

End FurtherFacts.

(** * The further properties on concrete requests *)


Lemma signup_json_leaves_uploads_witness :
  contains "application/json" (default "" (content_type (json_request ada))) = true /\
  uploads (signup (json_request ada) 3%nat "65a2" ada_world).2 = uploads ada_world.
Proof.
  split; [reflexivity|].
  exact (signup_json_leaves_uploads (Bc := sample_bcrypt) (json_request ada) 3%nat
           "65a2" ada_world eq_refl).
Defined.

Lemma signup_form_NoDup (filename : string) : NoDup (map fst (signup_form filename)).
Proof.
  cbn. apply NoDup_ListNoDup.
  repeat (constructor;
          [cbn; intros Hin; repeat destruct Hin as [Hin|Hin]; discriminate || auto|]).
  constructor.
Qed.

Lemma signup_stores_upload_path_witness :
  (exists doc,
     users_coll (signup (form_request (signup_form "ada.png")) 3%nat "65a1"
                   (sample_world [])).2 = [doc] /\
     fields doc !! "profilePic" = Some (VStr "uploads/ada.png")) /\
  (exists doc,
     users_coll (signup (form_request (signup_form "/srv/ada.png")) 3%nat "65a1"
                   (sample_world [])).2 = [doc] /\
     fields doc !! "profilePic" = Some (VStr "/srv/ada.png")).
Proof.
  split.
  - exact (signup_stores_upload_path (Bc := sample_bcrypt)
             (form_request (signup_form "ada.png")) 3%nat "65a1" (sample_world [])
             (signup_form "ada.png") "ada.png" [] "Signup successful" "65a1"
             eq_refl eq_refl (signup_form_NoDup _)
             ltac:(cbn; tauto) ltac:(vm_compute; reflexivity)).
  - exact (signup_stores_upload_path (Bc := sample_bcrypt)
             (form_request (signup_form "/srv/ada.png")) 3%nat "65a1" (sample_world [])
             (signup_form "/srv/ada.png") "/srv/ada.png" [] "Signup successful" "65a1"
             eq_refl eq_refl (signup_form_NoDup _)
             ltac:(cbn; tauto) ltac:(vm_compute; reflexivity)).
Defined.

Lemma ada_valid :
  exists valid, SignupModel_validate ada = inr valid /\
    email valid = "ada@example.com" /\ password valid = "secret1".
Proof.
  destruct (SignupModel_validate ada) as [errors|valid] eqn:Ev;
    [vm_compute in Ev; discriminate|].
  exists valid. split; [reflexivity|].
  vm_compute in Ev. injection Ev as <-. auto.
Qed.

Lemma signup_then_login_witness :
  exists token user,
    login ∅ (form_request (login_form "ada@example.com" "secret1")) 0 ada_world =
      (Returned (RLogin token user), ada_world) /\
    user !! "_id" = Some (VStr "65a1") /\
    user !! "password" = None /\
    user !! "firstName" = Some (VStr "Ada").
Proof.
  destruct ada_valid as (valid & Ev & He & Hp).
  destruct (signup_then_login (Laws := sample_bcrypt_laws)
              (json_request ada) 3%nat "65a1" (sample_world []) (sample_world [])
              ada valid ∅ (form_request (login_form "ada@example.com" "secret1")) 0
              eq_refl Ev eq_refl)
    as (token & user & E & Hid & Hpw & Hk).
  - rewrite He, Hp. apply login_form_request.
  - rewrite He. discriminate.
  - rewrite Hp. vm_compute. discriminate.
  - exists token, user. split; [exact E|]. split; [exact Hid|]. split; [exact Hpw|].
    rewrite Hk by discriminate.
    vm_compute in Ev. injection Ev as <-. reflexivity.
Defined.

Lemma signup_never_shadows_witness :
  let request := json_request (<["password" := VStr "hunter22"]> ada) in
  let w' := (signup request 3%nat "65a2" ada_world).2 in
  find_one (VStr "ada@example.com") (users_coll ada_world) = Some (ada_doc "65a1") /\
  length (users_coll w') = 2%nat /\
  find_one (VStr "ada@example.com") (users_coll w') = Some (ada_doc "65a1") /\
  (login ∅ (form_request (login_form "ada@example.com" "hunter22")) 0 w').1 =
    Returned (RFailure "invalid password" None).
Proof.
  cbn zeta.
  destruct (signup_never_shadows (Bc := sample_bcrypt)
              (json_request (<["password" := VStr "hunter22"]> ada)) 3%nat "65a2"
              ada_world (VStr "ada@example.com") (ada_doc "65a1") ada_world_find)
    as [Hfind Hlogin].
  split; [exact ada_world_find|]. split; [vm_compute; reflexivity|].
  split; [exact Hfind|].
  rewrite (Hlogin ∅ _ 0 "ada@example.com" "hunter22" eq_refl
             (login_form_request _ _) ltac:(discriminate) ltac:(discriminate)).
  vm_compute. reflexivity.
Defined.


Lemma handlers_keep_records_well_formed_witness :
  Forall (fun d => record_ok d = true) (users_coll ada_world) /\
  Forall (fun d => record_ok d = true)
    (users_coll (update_profile (form_request profile_form) 5%nat ada_world).2) /\
  Forall (fun d => record_ok d = true)
    (users_coll (delete_profile "ada@example.com" ada_twice).2).
Proof.
  destruct (handlers_keep_records_well_formed (Bc := sample_bcrypt))
    as (Hsignup & Hupdate & Hdelete).
  assert (Forall (fun d => record_ok d = true) (users_coll ada_world)) as Hada
    by (apply (Hsignup (json_request ada) 3%nat "65a1" (sample_world []));
        constructor).
  split; [exact Hada|]. split; [apply Hupdate; exact Hada|].
  apply Hdelete. apply (Hsignup (json_request ada) 3%nat "65a2" ada_world). exact Hada.
Defined.

Lemma update_rewrites_one_record_witness :
  let w' := (update_profile (form_request profile_form) 5%nat tagged_world).2 in
  ~ In "role" model_fields /\
  map _id (users_coll w') = ["65a1"; "65b7"] /\
  map (fun d => fields d !! "role") (users_coll w') = [Some (VStr "admin"); None] /\
  map (fun d => fields d !! "age") (users_coll w') = [Some (VInt 37); Some (VInt 36)] /\
  first_match (VStr "ada@example.com") (users_coll tagged_world) = Some 0%nat.
Proof.
  cbn zeta.
  destruct (update_rewrites_one_record (Bc := sample_bcrypt)
              (form_request profile_form) 5%nat tagged_world) as (Hid & Hother & Honly).
  assert (~ In "role" model_fields) as Hrole
    by (cbn; intros Hin; repeat destruct Hin as [Hin|Hin]; discriminate || auto).
  split; [exact Hrole|]. split; [exact Hid|]. split; [exact (Hother "role" Hrole)|].
  split; [vm_compute; reflexivity|].
  destruct (users_coll tagged_world !! 0%nat) as [d|] eqn:Hd; [|discriminate Hd].
  destruct (users_coll (update_profile (H0 := sample_bcrypt)
                          (form_request profile_form) 5%nat tagged_world).2
              !! 0%nat) as [d'|] eqn:Hd'; [|vm_compute in Hd'; discriminate Hd'].
  destruct (Honly 0%nat d d' Hd Hd') as (items & email & Hform & He & Hi).
  - vm_compute in Hd, Hd'. injection Hd as <-. injection Hd' as <-.
    intros Heq. apply (f_equal (fun doc => fields doc !! "age")) in Heq.
    vm_compute in Heq. discriminate Heq.
  - injection Hform as <-. vm_compute in He. injection He as <-. exact Hi.
Defined.

Lemma update_stores_the_submission_witness :
  let out := update_profile (form_request profile_form) 5%nat ada_world in
  out.1 = Returned (RSuccess "Profile updated successfully") /\
  exists doc,
    users_coll out.2 !! 0%nat = Some doc /\
    fields doc !! "firstName" = Some (VStr "Ada") /\
    fields doc !! "age" = Some (VInt 37) /\
    fields doc !! "email" = Some (VStr "ada@example.com").
Proof.
  cbn zeta. split; [vm_compute; reflexivity|].
  assert (update_profile (form_request profile_form) 5%nat ada_world =
          (Returned (RSuccess "Profile updated successfully"),
           (update_profile (form_request profile_form) 5%nat ada_world).2)) as E
    by (vm_compute; reflexivity).
  destruct (update_stores_the_submission _ _ _ _ E)
    as (items & email & i & doc & Hform & He & Hi & Hl & Hfn & _ & _ & Hage & Hem).
  injection Hform as <-. vm_compute in He. injection He as <-.
  vm_compute in Hi. injection Hi as <-.
  exists doc. split; [exact Hl|]. split; [rewrite Hfn; reflexivity|]. split.
  - destruct Hage as (v & n & Hv & Hn & ->). vm_compute in Hv. injection Hv as <-.
    vm_compute in Hn. injection Hn as <-. reflexivity.
  - destruct Hem as (e & e' & [= <-] & He' & ->). vm_compute in He'.
    injection He' as <-. reflexivity.
Defined.

Lemma update_failure_keeps_written_uploads_witness :
  let stray := [("email", Text "ghost@example.com"); ("profilePic", Upload "g.png" [])] in
  let anonymous := [("profilePic", Upload "g.png" [])] in
  let partial := [("email", Text "ada@example.com"); ("profilePic", Upload "g.png" [])] in
  let w1 := {| users_coll := users_coll ada_world;
               uploads := <["uploads/g.png" := []]> (uploads ada_world) |} in
  update_fields stray ∅ ada_world = (Returned (update_mapping stray ∅), w1) /\
  update_profile (form_request stray) 5%nat ada_world =
    (Returned (RFailure "user not found" None), w1) /\
  update_profile (form_request anonymous) 5%nat ada_world =
    (Returned (RFailure "email is required to update profile" None), w1) /\
  exists errors,
    update_profile (form_request partial) 5%nat ada_world =
      (Returned (RFailure "Validation failed" (Some errors)), w1) /\
    map err_loc errors = ["firstName"; "lastName"; "age"; "mobileNo"].
Proof.
  cbn zeta.
  pose (w1 := {| users_coll := users_coll ada_world;
                 uploads := <["uploads/g.png" := []]> (uploads ada_world) |}).
  assert (update_fields [("email", Text "ghost@example.com");
                         ("profilePic", Upload "g.png" [])] ∅ ada_world =
          (Returned (update_mapping [("email", Text "ghost@example.com");
                                     ("profilePic", Upload "g.png" [])] ∅), w1)) as E1
    by (vm_compute; reflexivity).
  assert (update_fields [("profilePic", Upload "g.png" [])] ∅ ada_world =
          (Returned (update_mapping [("profilePic", Upload "g.png" [])] ∅), w1)) as E2
    by (vm_compute; reflexivity).
  assert (update_fields [("email", Text "ada@example.com");
                         ("profilePic", Upload "g.png" [])] ∅ ada_world =
          (Returned (update_mapping [("email", Text "ada@example.com");
                                     ("profilePic", Upload "g.png" [])] ∅), w1)) as E3
    by (vm_compute; reflexivity).
  split; [exact E1|]. split; [|split].
  - exact (proj1 (proj2 (proj2 (update_failure_keeps_written_uploads
             (form_request _) 5%nat _ _ _ _ eq_refl eq_refl E1)))
             (VStr "ghost@example.com") eq_refl eq_refl eq_refl).
  - exact (proj1 (proj2 (update_failure_keeps_written_uploads
             (form_request _) 5%nat _ _ _ _ eq_refl eq_refl E2)) eq_refl).
  - destruct (SignupModel_validate
                (merge (update_mapping [("email", Text "ada@example.com");
                                        ("profilePic", Upload "g.png" [])] ∅)
                       (ada_doc "65a1")).1) as [errors|valid] eqn:Ev;
      [|vm_compute in Ev; discriminate Ev].
    exists errors. split.
    + exact (proj2 (proj2 (proj2 (update_failure_keeps_written_uploads
               (form_request _) 5%nat _ _ _ _ eq_refl eq_refl E3)))
               (VStr "ada@example.com") (ada_doc "65a1") errors
               eq_refl eq_refl ada_world_find Ev).
    + vm_compute in Ev. injection Ev as <-. reflexivity.
Defined.

Lemma delete_spares_other_emails_witness :
  let w' := (delete_profile "ada@example.com" tagged_world).2 in
  VStr "bob@example.com" <> VStr "ada@example.com" /\
  map _id (users_coll tagged_world) = ["65a1"; "65b7"] /\
  map _id (users_coll w') = ["65b7"] /\
  find_one (VStr "bob@example.com") (users_coll w') =
  find_one (VStr "bob@example.com") (users_coll tagged_world) /\
  uploads w' = uploads tagged_world.
Proof.
  cbn zeta.
  destruct (delete_spares_other_emails "ada@example.com" tagged_world)
    as (_ & Hother & Hup & _).
  split; [discriminate|]. split; [reflexivity|]. split; [vm_compute; reflexivity|].
  split; [apply Hother; discriminate|exact Hup].
Defined.

Lemma password_form_NoDup (p : string) :
  NoDup (map fst (("password", Text p) :: profile_form)).
Proof.
  cbn. apply NoDup_ListNoDup.
  repeat (constructor;
          [cbn; intros Hin; repeat destruct Hin as [Hin|Hin]; discriminate || auto|]).
  constructor.
Qed.

Lemma update_then_login_witness :
  let items := ("password", Text "secret22") :: profile_form in
  let out := update_profile (form_request items) 5%nat ada_world in
  out.1 = Returned (RSuccess "Profile updated successfully") /\
  (exists token user,
     login ∅ (form_request (login_form "ada@example.com" "secret22")) 0 out.2 =
       (Returned (RLogin token user), out.2)) /\
  (login ∅ (form_request (login_form "ada@example.com" "secret1")) 0 out.2).1 =
    Returned (RFailure "invalid password" None).
Proof.
  cbn zeta. split; [vm_compute; reflexivity|]. split; [|vm_compute; reflexivity].
  assert (update_profile (form_request (("password", Text "secret22") :: profile_form))
            5%nat ada_world =
          (Returned (RSuccess "Profile updated successfully"),
           (update_profile (form_request (("password", Text "secret22") :: profile_form))
              5%nat ada_world).2)) as E
    by (vm_compute; reflexivity).
  apply (update_then_login (Laws := sample_bcrypt_laws) _ _ _ _
           (("password", Text "secret22") :: profile_form)
           "ada@example.com" "secret22" ∅ _ 0 E).
  - reflexivity.
  - apply password_form_NoDup.
  - cbn. tauto.
  - cbn. tauto.
  - discriminate.
  - reflexivity.
  - vm_compute. discriminate.
  - apply login_form_request.
Defined.

Lemma login_reads_only_witness :
  (login ∅ (form_request (login_form "ada@example.com" "secret1")) 0 ada_world).2 =
  ada_world.
Proof.
  exact (login_reads_only ∅ (form_request (login_form "ada@example.com" "secret1")) 0
           ada_world).
Defined.

Lemma signup_inserts_on_success_only_witness :
  (exists doc,
     users_coll (signup (json_request ada) 3%nat "65a1" (sample_world [])).2 = [doc] /\
     _id doc = "65a1" /\
     forall k, is_Some (fields doc !! k) <-> In k model_fields) /\
  users_coll (signup (json_request (<["age" := VInt 0]> ada)) 3%nat "65a2" ada_world).2 =
  users_coll ada_world.
Proof.
  split.
  - pose proof (signup_inserts_on_success_only (Bc := sample_bcrypt)
                  (json_request ada) 3%nat "65a1" (sample_world [])) as Hs.
    cbn zeta in Hs.
    assert ((signup (json_request ada) 3%nat "65a1" (sample_world [])).1 =
            Returned (RSignup "Signup successful" "65a1")) as E
      by (vm_compute; reflexivity).
    rewrite E in Hs. destruct Hs as (_ & doc & Hc & Hid & Hk).
    exists doc. auto.
  - pose proof (signup_inserts_on_success_only (Bc := sample_bcrypt)
                  (json_request (<["age" := VInt 0]> ada)) 3%nat "65a2" ada_world) as Hs.
    cbn zeta in Hs.
    destruct (signup (H0 := sample_bcrypt)
                (json_request (<["age" := VInt 0]> ada)) 3%nat "65a2" ada_world).1
      as [[| msg inserted_id | | |]|e] eqn:E; try exact Hs.
    vm_compute in E. discriminate E.
Defined.
